(** * A shallow embedding of [scripts/fix-broken-links.py]

    The [DocumentationLinkFixer] class of the script is modelled as
    functions over an explicit filesystem store and the fixer's tracking
    sets, threaded through a small state-and-exception monad.  Python
    exceptions become [Err] results; the [try]/[except] blocks of the
    source become explicit handlers.  Documents are UTF-8 text held as
    Rocq byte strings; case mapping ([str.lower], [str.title]) and
    [str.strip] are modelled on their ASCII behaviour. *)

From Stdlib Require Import String Ascii List Bool Arith Lia Permutation.
Import ListNotations.
Open Scope list_scope.
Open Scope string_scope.
Open Scope nat_scope.

(* ------------------------------------------------------------------ *)
(** ** Python string helpers *)

Definition dq : string := String (ascii_of_nat 34) EmptyString.
Definition nl : string := String (ascii_of_nat 10) EmptyString.

(** [s.startswith(p)] *)
Definition py_startswith (s p : string) : bool := String.prefix p s.

(** [s.endswith(p)] *)
Definition py_endswith (s p : string) : bool :=
  let n := String.length s in
  let m := String.length p in
  (m <=? n) && String.eqb (substring (n - m) m s) p.

(** [p in s] *)
Definition py_contains (s p : string) : bool :=
  match index 0 p s with Some _ => true | None => false end.

(** [s.split(c)] for a one-character separator *)
Fixpoint py_split_char (c : ascii) (s : string) : list string :=
  match s with
  | EmptyString => [EmptyString]
  | String a rest =>
      let r := py_split_char c rest in
      if Ascii.eqb a c then EmptyString :: r
      else match r with
           | w :: ws => String a w :: ws
           | [] => [String a EmptyString]
           end
  end.

(** [sep.join(xs)] *)
Definition py_join (sep : string) (xs : list string) : string :=
  String.concat sep xs.

Definition is_upper (a : ascii) : bool :=
  let n := nat_of_ascii a in (65 <=? n) && (n <=? 90).
Definition is_lower (a : ascii) : bool :=
  let n := nat_of_ascii a in (97 <=? n) && (n <=? 122).
Definition to_lower (a : ascii) : ascii :=
  if is_upper a then ascii_of_nat (nat_of_ascii a + 32) else a.
Definition to_upper (a : ascii) : ascii :=
  if is_lower a then ascii_of_nat (nat_of_ascii a - 32) else a.

(** [s.lower()] *)
Fixpoint py_lower (s : string) : string :=
  match s with
  | EmptyString => EmptyString
  | String a r => String (to_lower a) (py_lower r)
  end.

(** [s.title()]: a cased character is upper-cased after an uncased one
    and lower-cased after a cased one. *)
Fixpoint py_title_from (prev_cased : bool) (s : string) : string :=
  match s with
  | EmptyString => EmptyString
  | String a r =>
      if is_upper a || is_lower a then
        String (if prev_cased then to_lower a else to_upper a)
               (py_title_from true r)
      else String a (py_title_from false r)
  end.
Definition py_title (s : string) : string := py_title_from false s.

(** [s.replace(a, b)] for single characters *)
Fixpoint py_replace_char (a b : ascii) (s : string) : string :=
  match s with
  | EmptyString => EmptyString
  | String c r => String (if Ascii.eqb c a then b else c) (py_replace_char a b r)
  end.

Definition is_space (a : ascii) : bool :=
  let n := nat_of_ascii a in
  (n =? 32) || ((9 <=? n) && (n <=? 13)) || ((28 <=? n) && (n <=? 31)).

Fixpoint lstrip (s : string) : string :=
  match s with
  | String a r => if is_space a then lstrip r else s
  | EmptyString => EmptyString
  end.
Definition rev_string (s : string) : string :=
  string_of_list_ascii (rev (list_ascii_of_string s)).
(** [s.strip()] *)
Definition py_strip (s : string) : string :=
  rev_string (lstrip (rev_string (lstrip s))).

(** Decimal rendering of a natural number, as in [f"{n}"]. *)
Fixpoint digits_fuel (fuel n : nat) (acc : string) : string :=
  match fuel with
  | O => acc
  | S f =>
      let d := String (ascii_of_nat (48 + n mod 10)) acc in
      if n <? 10 then d else digits_fuel f (n / 10) d
  end.
Definition nat_to_string (n : nat) : string := digits_fuel (S n) n EmptyString.

(** Universal-newline translation done by [open(..., 'r')]:
    ["\r\n"] and ["\r"] both read as ["\n"]. *)
Fixpoint translate_newlines (s : string) : string :=
  match s with
  | EmptyString => EmptyString
  | String a r =>
      if Ascii.eqb a (ascii_of_nat 13) then
        match r with
        | String b r' =>
            if Ascii.eqb b (ascii_of_nat 10) then String b (translate_newlines r')
            else String (ascii_of_nat 10) (translate_newlines r)
        | EmptyString => String (ascii_of_nat 10) EmptyString
        end
      else String a (translate_newlines r)
  end.

(** [f.readlines()]: lines split after each ["\n"], which is kept. *)
Fixpoint readlines (s : string) : list string :=
  match s with
  | EmptyString => []
  | String a r =>
      if Ascii.eqb a (ascii_of_nat 10) then String a EmptyString :: readlines r
      else match readlines r with
           | [] => [String a EmptyString]
           | l :: ls => String a l :: ls
           end
  end.

(** Result of a computation that may raise a Python exception. *)
Inductive result (A : Type) : Type :=
| Ok : A -> result A
| Err : string -> result A.
Arguments Ok {A} _.
Arguments Err {A} _.

Fixpoint list_string_eqb (xs ys : list string) : bool :=
  match xs, ys with
  | [], [] => true
  | x :: xs', y :: ys' => String.eqb x y && list_string_eqb xs' ys'
  | _, _ => false
  end.

(* ------------------------------------------------------------------ *)
(** ** [pathlib.PurePosixPath]

    A path is its root (["" ], ["/"] or ["//"]) and its parts; parsing
    drops empty and ["."] components and keeps [".."], as pathlib does. *)

Record path := mkPath { p_root : string; p_parts : list string }.

Definition path_eqb (p q : path) : bool :=
  String.eqb (p_root p) (p_root q) && list_string_eqb (p_parts p) (p_parts q).

(** [posixpath.splitroot]'s root *)
Definition splitroot_root (s : string) : string :=
  if py_startswith s "//" && negb (py_startswith s "///") then "//"
  else if py_startswith s "/" then "/" else "".

(** [Path(s)] *)
Definition Path (s : string) : path :=
  mkPath (splitroot_root s)
         (filter (fun x => negb (String.eqb x "" || String.eqb x "."))
                 (py_split_char "/"%char s)).

(** [str(p)] *)
Definition path_str (p : path) : string :=
  match p_root p, p_parts p with
  | "", [] => "."
  | r, ps => r ++ py_join "/" ps
  end.

(** [p / s]: an absolute [s] replaces [p]. *)
Definition path_div (p : path) (s : string) : path :=
  let q := Path s in
  if String.eqb (p_root q) "" then mkPath (p_root p) (p_parts p ++ p_parts q)%list
  else q.

(** [p.parent] *)
Definition parent (p : path) : path :=
  match p_parts p with
  | [] => p
  | ps => mkPath (p_root p) (removelast ps)
  end.

(** [p.name] *)
Definition name (p : path) : string := last (p_parts p) "".

(** position of the last ['.'] in a string, as [str.rfind('.')] *)
Fixpoint rfind_dot_from (i : nat) (s : string) (acc : option nat) : option nat :=
  match s with
  | EmptyString => acc
  | String a r =>
      rfind_dot_from (S i) r (if Ascii.eqb a "."%char then Some i else acc)
  end.

(** [PurePath.suffix] of a name: from the last dot, when that dot is
    neither the first nor the last character. *)
Definition name_suffix (nm : string) : string :=
  match rfind_dot_from 0 nm None with
  | Some i =>
      if (0 <? i) && (i <? String.length nm - 1)
      then substring i (String.length nm - i) nm else ""
  | None => ""
  end.

(** [p.suffix] *)
Definition suffix (p : path) : string := name_suffix (name p).

(** [p.stem] *)
Definition stem (p : path) : string :=
  let nm := name p in
  substring 0 (String.length nm - String.length (name_suffix nm)) nm.

(** [p.with_suffix(sfx)], which raises [ValueError] on an empty name. *)
Definition with_suffix (p : path) (sfx : string) : result path :=
  let nm := name p in
  if String.eqb nm "" then Err "ValueError: empty name"
  else Ok (mkPath (p_root p) (removelast (p_parts p) ++ [(stem p ++ sfx)%string])%list).

(** [p.relative_to(base)], for [p] below [base] *)
Definition relative_to (p base : path) : path :=
  mkPath "" (skipn (List.length (p_parts base)) (p_parts p)).

(* ------------------------------------------------------------------ *)
(** ** The filesystem

    Directories and files are keyed by their absolute component list,
    with [".."] already resolved.  The working directory is ["/"]. *)

Definition key := list string.

Record fs := mkFs { fs_dirs : list key; fs_files : list (key * string) }.

Definition is_dir (f : fs) (k : key) : bool :=
  match k with
  | [] => true
  | _ => existsb (list_string_eqb k) (fs_dirs f)
  end.

Definition find_file (f : fs) (k : key) : option string :=
  match find (fun e => list_string_eqb (fst e) k) (fs_files f) with
  | Some (_, c) => Some c
  | None => None
  end.

Definition is_file (f : fs) (k : key) : bool :=
  match find_file f k with Some _ => true | None => false end.

(** Path lookup as the kernel does it: every component before the last
    must name a directory, and [".."] steps to the parent. *)
Fixpoint walk (f : fs) (cur : key) (ps : list string) : option key :=
  match ps with
  | [] => Some cur
  | x :: rest =>
      if String.eqb x ".." then walk f (removelast cur) rest
      else
        let n := (cur ++ [x])%list in
        match rest with
        | [] => Some n
        | _ => if is_dir f n then walk f n rest else None
        end
  end.

(** [p.exists()] *)
Definition path_exists (f : fs) (p : path) : bool :=
  match walk f [] (p_parts p) with
  | Some k => is_dir f k || is_file f k
  | None => false
  end.

(** [open(p, 'r').read()] *)
Definition read_text (f : fs) (p : path) : result string :=
  match walk f [] (p_parts p) with
  | Some k =>
      match find_file f k with
      | Some c => Ok (translate_newlines c)
      | None => Err "OSError: cannot read"
      end
  | None => Err "FileNotFoundError"
  end.

Fixpoint set_file (files : list (key * string)) (k : key) (c : string)
  : list (key * string) :=
  match files with
  | [] => [(k, c)]
  | (k', c') :: rest =>
      if list_string_eqb k' k then (k', c) :: rest
      else (k', c') :: set_file rest k c
  end.

(** [open(p, 'w').write(c)] *)
Definition write_text (f : fs) (p : path) (c : string) : result fs :=
  match walk f [] (p_parts p) with
  | Some k =>
      if is_dir f k then Err "IsADirectoryError"
      else Ok (mkFs (fs_dirs f) (set_file (fs_files f) k c))
  | None => Err "FileNotFoundError"
  end.

Fixpoint mkdir_walk (f : fs) (cur : key) (ps : list string) : result fs :=
  match ps with
  | [] => Ok f
  | x :: rest =>
      if String.eqb x ".." then mkdir_walk f (removelast cur) rest
      else
        let n := (cur ++ [x])%list in
        if is_dir f n then mkdir_walk f n rest
        else if is_file f n then Err "FileExistsError"
        else mkdir_walk (mkFs (n :: fs_dirs f) (fs_files f)) n rest
  end.

(** [p.mkdir(parents=True, exist_ok=True)] *)
Definition mkdir_p (f : fs) (p : path) : result fs := mkdir_walk f [] (p_parts p).

(* ------------------------------------------------------------------ *)
(** ** Link extraction: the [re.findall] of [analyze_broken_links], whose
    pattern is a bracketed display text without a closing bracket followed
    by a parenthesised, non-empty target without a closing parenthesis. *)

(** Text before the first [c], and the text after it. *)
Fixpoint take_until (c : ascii) (s : string) : option (string * string) :=
  match s with
  | EmptyString => None
  | String a r =>
      if Ascii.eqb a c then Some (EmptyString, r)
      else match take_until c r with
           | Some (w, rest) => Some (String a w, rest)
           | None => None
           end
  end.

(** One match attempt just after a ['[']: the display text runs to the
    first [']'], which must be followed by ['('], and the target runs to
    the first [')'] and is not empty. *)
Definition try_link (s : string) : option (string * string * string) :=
  match take_until "]"%char s with
  | Some (text, String a r) =>
      if Ascii.eqb a "("%char then
        match take_until ")"%char r with
        | Some (url, rest) =>
            if String.eqb url "" then None else Some (text, url, rest)
        | None => None
        end
      else None
  | _ => None
  end.

(** Left-to-right, non-overlapping scan; [fuel] bounds the steps. *)
Fixpoint findall_fuel (fuel : nat) (s : string) : list (string * string) :=
  match fuel with
  | O => []
  | S k =>
      match s with
      | EmptyString => []
      | String a r =>
          if Ascii.eqb a "["%char then
            match try_link r with
            | Some (text, url, rest) => (text, url) :: findall_fuel k rest
            | None => findall_fuel k r
            end
          else findall_fuel k r
      end
  end.

Definition link_matches (content : string) : list (string * string) :=
  findall_fuel (String.length content) content.

(* ------------------------------------------------------------------ *)
(** ** Classification records *)

(** The dict built for one broken link; [li_resolved_path] is the
    ["resolved_path"] key, present only in [missing_files] records. *)
Record link_info := mkInfo {
  li_file : string;
  li_link_text : string;
  li_url : string;
  li_resolved_path : option string;
  li_line_context : string
}.

(** The [broken_links] dict of [analyze_broken_links]. *)
Record broken_links := mkBroken {
  missing_files : list link_info;
  broken_anchors : list link_info;
  research_links : list link_info;
  sample_project_links : list link_info;
  malformed_links : list link_info
}.

Inductive category :=
| MissingFiles | BrokenAnchors | ResearchLinks | SampleProjectLinks | MalformedLinks.

Definition empty_broken : broken_links := mkBroken [] [] [] [] [].

(** [broken_links[category].append(info)] *)
Definition add_record (c : category) (li : link_info) (b : broken_links)
  : broken_links :=
  match c with
  | MissingFiles => mkBroken (missing_files b ++ [li]) (broken_anchors b)
                      (research_links b) (sample_project_links b) (malformed_links b)
  | BrokenAnchors => mkBroken (missing_files b) (broken_anchors b ++ [li])
                      (research_links b) (sample_project_links b) (malformed_links b)
  | ResearchLinks => mkBroken (missing_files b) (broken_anchors b)
                      (research_links b ++ [li]) (sample_project_links b) (malformed_links b)
  | SampleProjectLinks => mkBroken (missing_files b) (broken_anchors b)
                      (research_links b) (sample_project_links b ++ [li]) (malformed_links b)
  | MalformedLinks => mkBroken (missing_files b) (broken_anchors b)
                      (research_links b) (sample_project_links b) (malformed_links b ++ [li])
  end.

(** [sum(len(v) for v in broken_links.values())] *)
Definition total_issues (b : broken_links) : nat :=
  List.length (missing_files b) + List.length (broken_anchors b)
  + List.length (research_links b) + List.length (sample_project_links b)
  + List.length (malformed_links b).

(** [_get_line_context] *)
Fixpoint first_line_with (i : nat) (lines : list string) (url : string) : string :=
  match lines with
  | [] => "Context not found"
  | l :: ls =>
      if py_contains l url then "Line " ++ nat_to_string (S i) ++ ": " ++ py_strip l
      else first_line_with (S i) ls url
  end.

Definition _get_line_context (f : fs) (md_file : path) (url : string) : string :=
  match read_text f md_file with
  | Ok content => first_line_with 0 (readlines content) url
  | Err _ => "Error reading context"
  end.

(* ------------------------------------------------------------------ *)
(** ** Resolver and classifier *)

Section Classifier.

Variable docs_dir : path.

(** [_resolve_link_path].  Joining a [str] onto a [Path] never raises,
    so the [except] branch returning [None] is never taken. *)
Definition _resolve_link_path (md_file : path) (url : string) : option path :=
  if py_startswith url "./" then
    Some (path_div (parent md_file) (substring 2 (String.length url - 2) url))
  else if py_startswith url "../" then Some (path_div (parent md_file) url)
  else Some (path_div (parent md_file) url).

Definition mk_record (f : fs) (md_file : path) (text url : string)
  (resolved : option string) : link_info :=
  mkInfo (path_str (relative_to md_file docs_dir)) text url resolved
         (_get_line_context f md_file url).

(** [str(target_path) if target_path else "unresolvable"] *)
Definition resolved_field (target_path : option path) : string :=
  match target_path with
  | Some tp => path_str tp
  | None => "unresolvable"
  end.

(** Lines 99-113 of [_categorize_link]: the existence check applied to
    the resolver's result.  [None] means the link is not collected. *)
Definition _categorize_resolved (f : fs) (md_file : path) (text url : string)
  (target_path : option path) : result (option (category * link_info)) :=
  let missing := Some (MissingFiles,
        mk_record f md_file text url (Some (resolved_field target_path))) in
  match target_path with
  | Some tp =>
      if negb (path_exists f tp) then
        if negb (py_endswith url ".md") then
          match with_suffix tp ".md" with
          | Err e => Err e
          | Ok md_target => if path_exists f md_target then Ok None else Ok missing
          end
        else Ok missing
      else Ok None
  | None => Ok None
  end.

Definition is_external (url : string) : bool :=
  py_startswith url "http" || py_startswith url "https"
  || py_startswith url "mailto:" || py_startswith url "#".

Definition research_marker : string := "perform_research_research_".
Definition sample_marker : string := "../../../sample-project/".

(** [_categorize_link] *)
Definition _categorize_link (f : fs) (md_file : path) (text url : string)
  : result (option (category * link_info)) :=
  if is_external url then Ok None
  else if py_contains url research_marker then
    Ok (Some (ResearchLinks, mk_record f md_file text url None))
  else if py_contains url sample_marker then
    Ok (Some (SampleProjectLinks, mk_record f md_file text url None))
  else _categorize_resolved f md_file text url (_resolve_link_path md_file url).

(** The loop over one document's matches; an exception ends the
    document (it is caught by the per-file [try]). *)
Fixpoint categorize_all (f : fs) (md_file : path) (ms : list (string * string))
  (b : broken_links) : broken_links :=
  match ms with
  | [] => b
  | (text, url) :: rest =>
      match _categorize_link f md_file text url with
      | Ok None => categorize_all f md_file rest b
      | Ok (Some (c, li)) => categorize_all f md_file rest (add_record c li b)
      | Err _ => b
      end
  end.

Definition is_strict_prefix (kd k : key) : bool :=
  list_string_eqb (firstn (List.length kd) k) kd && (List.length kd <? List.length k).

(** [docs_dir.rglob("*.md")]; traversal order is the store's order. *)
Definition md_files (f : fs) : list path :=
  match walk f [] (p_parts docs_dir) with
  | Some kd =>
      if is_dir f kd then
        flat_map (fun e =>
          let k := fst e in
          if is_strict_prefix kd k && py_endswith (last k "") ".md"
          then [mkPath (p_root docs_dir)
                       (p_parts docs_dir ++ skipn (List.length kd) k)%list]
          else []) (fs_files f)
      else []
  | None => []
  end.

(** [analyze_broken_links] *)
Definition analyze_broken_links (f : fs) : broken_links :=
  fold_left (fun b md_file =>
    match read_text f md_file with
    | Ok content => categorize_all f md_file (link_matches content) b
    | Err _ => b
    end) (md_files f) empty_broken.

End Classifier.

(* ------------------------------------------------------------------ *)
(** ** Templates (the f-strings of the [_generate_*] methods) *)

Definition _generate_how_to_template (title filename : string) : string :=
  "# 🛠️ How-To: "
  ++ title
  ++ "

**Step-by-step guide for "
  ++ py_lower title
  ++ " in the MCP ADR Analysis Server.**

**When to use this guide**: [Describe when users should follow this guide]

---

## 🎯 Quick Start

### Prerequisites
- MCP ADR Analysis Server installed and configured
- [Additional prerequisites]

### Basic Usage
```bash
# Basic command example
npm run [command]
```

---

## 📋 Step-by-Step Process

### Step 1: [First Step]
[Detailed instructions for the first step]

### Step 2: [Second Step]
[Detailed instructions for the second step]

### Step 3: [Third Step]
[Detailed instructions for the third step]

---

## 🔧 Advanced Configuration

### [Advanced Topic 1]
[Advanced configuration details]

### [Advanced Topic 2]
[More advanced configuration]

---

## 🚨 Troubleshooting

### Common Issues
- **Issue 1**: [Description and solution]
- **Issue 2**: [Description and solution]

### Error Messages
- `Error message`: [Explanation and fix]

---

## 📚 Related Documentation

- **[Related Guide 1](../reference/api-reference.md)** - [Description]
- **[Related Guide 2](../how-to-guides/troubleshooting.md)** - [Description]

---

**Need help with "
  ++ py_lower title
  ++ "?** → **[File an Issue](https://github.com/tosin2013/mcp-adr-analysis-server/issues)** or check the **[Troubleshooting Guide](troubleshooting.md)**
".

Definition _generate_reference_template (title filename : string) : string :=
  "# 📚 "
  ++ title
  ++ " Reference

**Complete reference documentation for "
  ++ py_lower title
  ++ " in the MCP ADR Analysis Server.**

---

## 📋 Quick Reference

| Item | Description | Usage |
|------|-------------|-------|
| [Item 1] | [Description] | [Usage example] |
| [Item 2] | [Description] | [Usage example] |

---

## 🔧 Detailed Reference

### [Section 1]
[Detailed reference information]

#### Parameters
- `parameter1`: [Description]
- `parameter2`: [Description]

#### Examples
```json
{
  "
  ++ dq
  ++ "example"
  ++ dq
  ++ ": "
  ++ dq
  ++ "configuration"
  ++ dq
  ++ "
}
```

### [Section 2]
[More detailed reference information]

---

## 📊 Configuration Options

### [Configuration Category 1]
```yaml
configuration:
  option1: value1
  option2: value2
```

### [Configuration Category 2]
[Configuration details]

---

## 🔗 Related Documentation

- **[API Reference](api-reference.md)** - Complete API documentation
- **[How-To Guides](../how-to-guides/)** - Step-by-step guides

---

**Need help with "
  ++ py_lower title
  ++ "?** → **[File an Issue](https://github.com/tosin2013/mcp-adr-analysis-server/issues)**
".

Definition _generate_explanation_template (title filename : string) : string :=
  "# 🧠 "
  ++ title
  ++ "

**Understanding "
  ++ py_lower title
  ++ " in the MCP ADR Analysis Server architecture and design philosophy.**

---

## 🎯 Overview

[High-level explanation of the concept]

### Key Concepts
- **Concept 1**: [Explanation]
- **Concept 2**: [Explanation]
- **Concept 3**: [Explanation]

---

## 🏗️ Architecture and Design

### [Design Principle 1]
[Detailed explanation of the design principle]

### [Design Principle 2]
[Another design principle explanation]

---

## 🔄 How It Works

### [Process 1]
[Step-by-step explanation of how something works]

### [Process 2]
[Another process explanation]

---

## 💡 Design Decisions

### [Decision 1]
**Problem**: [What problem this solves]
**Solution**: [How it's solved]
**Trade-offs**: [What trade-offs were made]

### [Decision 2]
**Problem**: [Problem description]
**Solution**: [Solution description]
**Trade-offs**: [Trade-off analysis]

---

## 🔗 Related Concepts

- **[Related Concept 1](../explanation/)** - [Brief description]
- **[Related Concept 2](../explanation/)** - [Brief description]

---

## 📚 Further Reading

- **[Implementation Guide](../how-to-guides/)** - How to implement these concepts
- **[API Reference](../reference/)** - Technical reference documentation

---

**Questions about "
  ++ py_lower title
  ++ "?** → **[Join the Discussion](https://github.com/tosin2013/mcp-adr-analysis-server/discussions)**
".

Definition _generate_tutorial_template (title filename : string) : string :=
  "# 🎓 Tutorial: "
  ++ title
  ++ "

**Learn "
  ++ py_lower title
  ++ " through hands-on examples and exercises.**

**Prerequisites**: [List prerequisites]
**Estimated time**: [Time estimate]
**Difficulty**: [Beginner/Intermediate/Advanced]

---

## 🎯 What You'll Learn

By the end of this tutorial, you'll be able to:
- [Learning objective 1]
- [Learning objective 2]
- [Learning objective 3]

---

## 📋 Tutorial Steps

### Step 1: [Setup/Introduction]
[Detailed tutorial step with examples]

```bash
# Example command
npm run example
```

### Step 2: [Main Content]
[Next tutorial step]

### Step 3: [Advanced Topics]
[Advanced tutorial content]

---

## 🧪 Exercises

### Exercise 1: [Exercise Name]
**Objective**: [What the exercise teaches]
**Instructions**: [Step-by-step instructions]

### Exercise 2: [Exercise Name]
**Objective**: [Exercise objective]
**Instructions**: [Exercise instructions]

---

## ✅ Summary

In this tutorial, you learned:
- [Summary point 1]
- [Summary point 2]
- [Summary point 3]

---

## 🚀 Next Steps

- **[Next Tutorial](../tutorials/)** - [Description]
- **[Related How-To Guide](../how-to-guides/)** - [Description]

---

**Questions about this tutorial?** → **[File an Issue](https://github.com/tosin2013/mcp-adr-analysis-server/issues)**
".

Definition _generate_generic_template (title filename : string) : string :=
  "# "
  ++ title
  ++ "

**[Brief description of what this document covers]**

---

## Overview

[Content overview]

## [Section 1]

[Content for section 1]

## [Section 2]

[Content for section 2]

---

## Related Documentation

- **[Related Doc 1](../reference/)** - [Description]
- **[Related Doc 2](../how-to-guides/)** - [Description]

---

**Need help?** → **[File an Issue](https://github.com/tosin2013/mcp-adr-analysis-server/issues)**
".

Definition _generate_sample_adr (title filename : string) : string :=
  let adr_number := nth 0 (py_split_char "-"%char filename) ""%string in
  "# ADR-"
  ++ adr_number
  ++ ": "
  ++ title
  ++ "

**Status**: Accepted
**Date**: 2024-01-15
**Deciders**: Architecture Team

## Context

This is a sample architectural decision record demonstrating the ADR format and structure used in the MCP ADR Analysis Server project.

## Decision

We will use this sample ADR to demonstrate:
- Proper ADR structure and formatting
- Decision documentation best practices
- Integration with the MCP ADR Analysis Server

## Consequences

### Positive
- Provides concrete examples for users
- Demonstrates ADR best practices
- Shows integration with analysis tools

### Negative
- Requires maintenance to keep examples current
- May not reflect all possible ADR variations

## Implementation

This sample ADR serves as a template and reference for:
1. New teams adopting ADRs
2. Training and onboarding materials
3. Testing ADR analysis tools

## Related Decisions

- This is a standalone sample decision
- Links to other sample ADRs in this directory
- Demonstrates cross-referencing between ADRs

---

*This is a sample ADR created for demonstration purposes in the MCP ADR Analysis Server project.*
".

(* ------------------------------------------------------------------ *)
(** ** Replacement templates of [re.sub]

    [re.sub] compiles its replacement string before searching: escapes
    are decoded, [\1] and [\g<1>] refer to the display-text group, [\0]
    and [\g<0>] to the whole match, and a bad escape or a reference to a
    group the pattern lacks raises [re.error]. *)

Inductive tpiece := TLit (a : ascii) | TGroup (n : nat).

Definition bs : ascii := ascii_of_nat 92.
Definition is_digit (a : ascii) : bool :=
  let n := nat_of_ascii a in (48 <=? n) && (n <=? 57).
Definition is_octal (a : ascii) : bool :=
  let n := nat_of_ascii a in (48 <=? n) && (n <=? 55).
Definition digit_val (a : ascii) : nat := nat_of_ascii a - 48.
Fixpoint digits_value (acc : nat) (ds : list ascii) : nat :=
  match ds with [] => acc | d :: r => digits_value (10 * acc + digit_val d) r end.

(** the one-letter escapes of [sre_parse.ESCAPES] *)
Definition simple_escape (c : ascii) : option ascii :=
  match nat_of_ascii c with
  | 97 => Some (ascii_of_nat 7)   | 98 => Some (ascii_of_nat 8)
  | 102 => Some (ascii_of_nat 12) | 110 => Some (ascii_of_nat 10)
  | 114 => Some (ascii_of_nat 13) | 116 => Some (ascii_of_nat 9)
  | 118 => Some (ascii_of_nat 11) | 92 => Some bs
  | _ => None
  end.

Fixpoint split_at_gt (s : list ascii) : option (list ascii * list ascii) :=
  match s with
  | [] => None
  | a :: r =>
      if Ascii.eqb a ">"%char then Some ([], r)
      else match split_at_gt r with
           | Some (w, rest) => Some (a :: w, rest)
           | None => None
           end
  end.

Definition group_ref {B} (n : nat) (k : list tpiece -> result B) (rest : list tpiece)
  : result B :=
  if n <=? 1 then k (TGroup n :: rest) else Err "re.error: invalid group reference".

Fixpoint parse_template (fuel : nat) (s : list ascii) : result (list tpiece) :=
  match fuel with
  | O => Ok []
  | S k =>
  let cont rest (ps : list tpiece) :=
    match parse_template k rest with Ok qs => Ok (ps ++ qs)%list | Err e => Err e end in
  match s with
  | [] => Ok []
  | a :: r =>
      if negb (Ascii.eqb a bs) then cont r [TLit a]
      else match r with
      | [] => Err "re.error: bad escape (end of pattern)"
      | c :: rest =>
          if Ascii.eqb c "g"%char then
            match rest with
            | a' :: rest' =>
                if Ascii.eqb a' "<"%char then
                  match split_at_gt rest' with
                  | Some (nm, rest'') =>
                      if (0 <? List.length nm) && forallb is_digit nm then
                        if digits_value 0 nm <=? 1
                        then cont rest'' [TGroup (digits_value 0 nm)]
                        else Err "re.error: invalid group reference"
                      else Err "re.error: bad group name"
                  | None => Err "re.error: missing >"
                  end
                else Err "re.error: missing <"
            | [] => Err "re.error: missing <"
            end
          else if Ascii.eqb c "0"%char then
            match rest with
            | d1 :: d2 :: rest' =>
                if is_octal d1 then
                  if is_octal d2
                  then cont rest' [TLit (ascii_of_nat ((8 * digit_val d1 + digit_val d2) mod 256))]
                  else cont (d2 :: rest') [TLit (ascii_of_nat (digit_val d1))]
                else cont rest [TLit (ascii_of_nat 0)]
            | [d1] =>
                if is_octal d1 then cont [] [TLit (ascii_of_nat (digit_val d1))]
                else cont rest [TLit (ascii_of_nat 0)]
            | [] => cont [] [TLit (ascii_of_nat 0)]
            end
          else if is_digit c then
            match rest with
            | d :: rest' =>
                if is_digit d then
                  match rest' with
                  | e :: rest'' =>
                      if is_octal c && is_octal d && is_octal e then
                        let v := 64 * digit_val c + 8 * digit_val d + digit_val e in
                        if 255 <? v then Err "re.error: octal escape out of range"
                        else cont rest'' [TLit (ascii_of_nat v)]
                      else if 10 * digit_val c + digit_val d <=? 1
                      then cont rest' [TGroup (10 * digit_val c + digit_val d)]
                      else Err "re.error: invalid group reference"
                  | [] =>
                      if 10 * digit_val c + digit_val d <=? 1
                      then cont rest' [TGroup (10 * digit_val c + digit_val d)]
                      else Err "re.error: invalid group reference"
                  end
                else if digit_val c <=? 1 then cont rest [TGroup (digit_val c)]
                else Err "re.error: invalid group reference"
            | [] =>
                if digit_val c <=? 1 then cont rest [TGroup (digit_val c)]
                else Err "re.error: invalid group reference"
            end
          else match simple_escape c with
               | Some e => cont rest [TLit e]
               | None =>
                   if is_upper c || is_lower c then Err "re.error: bad escape"
                   else cont rest [TLit bs; TLit c]
               end
      end
  end
  end.

Definition expand_template (ps : list tpiece) (g0 g1 : string) : string :=
  String.concat "" (map (fun p => match p with
                                  | TLit a => String a EmptyString
                                  | TGroup 0 => g0
                                  | TGroup _ => g1
                                  end) ps).

(** A match of the escaped-target pattern just after a ['[']. *)
Definition try_research_link (s url : string) : option (string * string) :=
  match take_until "]"%char s with
  | Some (text, String a r) =>
      if Ascii.eqb a "("%char && String.prefix (url ++ ")") r
      then Some (text, substring (String.length url + 1)
                                 (String.length r - (String.length url + 1)) r)
      else None
  | _ => None
  end.

Fixpoint sub_fuel (fuel : nat) (url : string) (ps : list tpiece) (s : string) : string :=
  match fuel with
  | O => s
  | S k =>
      match s with
      | EmptyString => EmptyString
      | String a r =>
          if Ascii.eqb a "["%char then
            match try_research_link r url with
            | Some (text, rest) =>
                expand_template ps ("[" ++ text ++ "](" ++ url ++ ")") text
                ++ sub_fuel k url ps rest
            | None => String a (sub_fuel k url ps r)
            end
          else String a (sub_fuel k url ps r)
      end
  end.

(** The [re.sub] of [_fix_research_links_in_file]: every link whose target
    is exactly [url] becomes the expanded replacement. *)
Definition research_sub (url content : string) : result string :=
  let replacement := "<!-- TODO: Fix research link: " ++ url ++ " -->" in
  let r := list_ascii_of_string replacement in
  match parse_template (List.length r) r with
  | Ok ps => Ok (sub_fuel (String.length content) url ps content)
  | Err e => Err e
  end.

(* ------------------------------------------------------------------ *)
(** ** The fixer's state and its monad *)

(** The mutable part of a [DocumentationLinkFixer]: the filesystem it
    works on and its [created_files] / [updated_files] sets. *)
Record fixer := mkFixer {
  fx_fs : fs;
  created_files : list path;
  updated_files : list path
}.

Definition M (A : Type) : Type := fixer -> result A * fixer.

Definition ret {A} (a : A) : M A := fun s => (Ok a, s).
Definition bind {A B} (m : M A) (k : A -> M B) : M B :=
  fun s => match m s with
           | (Ok a, s') => k a s'
           | (Err e, s') => (Err e, s')
           end.
Notation "x <- m ;; k" := (bind m (fun x => k))
  (at level 61, m at next level, right associativity).

(** [try: m except Exception: h] *)
Definition try_except {A} (m : M A) (h : string -> M A) : M A :=
  fun s => match m s with
           | (Err e, s') => h e s'
           | r => r
           end.

Definition get : M fixer := fun s => (Ok s, s).
Definition lift {A} (r : result A) : M A := fun s => (r, s).

(** a filesystem operation, which may raise *)
Definition fs_op (op : fs -> result fs) : M unit :=
  fun s => match op (fx_fs s) with
           | Ok f' => (Ok tt, mkFixer f' (created_files s) (updated_files s))
           | Err e => (Err e, s)
           end.

Definition set_add (p : path) (xs : list path) : list path :=
  if existsb (path_eqb p) xs then xs else (xs ++ [p])%list.

Definition add_created (p : path) : M unit :=
  fun s => (Ok tt, mkFixer (fx_fs s) (set_add p (created_files s)) (updated_files s)).
Definition add_updated (p : path) : M unit :=
  fun s => (Ok tt, mkFixer (fx_fs s) (created_files s) (set_add p (updated_files s))).

(* ------------------------------------------------------------------ *)
(** ** The fixer *)

Section Fixer.

Variable docs_dir : path.
Variable dry_run : bool.

(** [_group_missing_files]: the group a [missing_files] record goes to *)
Definition file_type_of (url : string) : string :=
  if py_contains url "how-to-guides/" then "how_to_guides"
  else if py_contains url "reference/" then "reference"
  else if py_contains url "explanation/" then "explanation"
  else if py_contains url "tutorials/" then "tutorials"
  else "other".

Definition file_types : list string :=
  ["how_to_guides"; "reference"; "explanation"; "tutorials"; "other"].

Definition _group_missing_files (missing : list link_info)
  : list (string * list link_info) :=
  map (fun t => (t, filter (fun li => String.eqb (file_type_of (li_url li)) t) missing))
      file_types.

(** [_construct_path_from_url] *)
Definition _construct_path_from_url (source_file url : string) : path :=
  let source_path := path_div docs_dir source_file in
  if py_startswith url "./" then
    path_div (parent source_path) (substring 2 (String.length url - 2) url)
  else if py_startswith url "../" then path_div (parent source_path) url
  else path_div (parent source_path) url.

(** [filename.replace('-', ' ').replace('_', ' ').title()] *)
Definition title_of (filename : string) : string :=
  py_title (py_replace_char "_"%char " "%char (py_replace_char "-"%char " "%char filename)).

(** [_generate_file_content] *)
Definition _generate_file_content (target_path : path) (file_type : string) : string :=
  let filename := stem target_path in
  let title := title_of filename in
  if String.eqb file_type "how_to_guides" then _generate_how_to_template title filename
  else if String.eqb file_type "reference" then _generate_reference_template title filename
  else if String.eqb file_type "explanation" then _generate_explanation_template title filename
  else if String.eqb file_type "tutorials" then _generate_tutorial_template title filename
  else _generate_generic_template title filename.

(** The path [_create_missing_file] starts from. *)
Definition initial_target (file_info : link_info) : path :=
  let resolved_path := match li_resolved_path file_info with Some r => r | None => "" end in
  if negb (String.eqb resolved_path "") && negb (String.eqb resolved_path "unresolvable")
  then Path resolved_path
  else _construct_path_from_url (li_file file_info) (li_url file_info).

(** [_create_missing_file].  A [Path] is always truthy, so
    [not target_path] is false and only the membership test remains. *)
Definition _create_missing_file (file_info : link_info) (file_type : string) : M bool :=
  let target0 := initial_target file_info in
  s <- get;;
  if existsb (path_eqb target0) (created_files s) then ret false else
  target_path <- (if String.eqb (suffix target0) "" then lift (with_suffix target0 ".md")
                  else ret target0);;
  _ <- fs_op (fun f => mkdir_p f (parent target_path));;
  let content := _generate_file_content target_path file_type in
  if dry_run then ret true else
  try_except
    (_ <- fs_op (fun f => write_text f target_path content);;
     _ <- add_created target_path;;
     ret true)
    (fun _ => ret false).

Fixpoint create_all (file_type : string) (files : list link_info) (n : nat) : M nat :=
  match files with
  | [] => ret n
  | fi :: rest =>
      b <- _create_missing_file fi file_type;;
      create_all file_type rest (if b then S n else n)
  end.

Fixpoint create_groups (groups : list (string * list link_info)) (n : nat) : M nat :=
  match groups with
  | [] => ret n
  | (t, files) :: rest => m <- create_all t files n;; create_groups rest m
  end.

(** [fix_missing_files] *)
Definition fix_missing_files (missing : list link_info) : M nat :=
  create_groups (_group_missing_files missing) 0.

(** [files_to_update], keyed by source file in first-appearance order *)
Fixpoint group_by_file (links : list link_info) (acc : list (string * list link_info))
  : list (string * list link_info) :=
  match links with
  | [] => acc
  | l :: rest =>
      let acc' :=
        if existsb (fun e => String.eqb (fst e) (li_file l)) acc
        then map (fun e => if String.eqb (fst e) (li_file l)
                           then (fst e, snd e ++ [l])%list else e) acc
        else (acc ++ [(li_file l, [l])])%list in
      group_by_file rest acc'
  end.

Fixpoint sub_all (links : list link_info) (content : string) : result string :=
  match links with
  | [] => Ok content
  | l :: rest =>
      match research_sub (li_url l) content with
      | Ok c => sub_all rest c
      | Err e => Err e
      end
  end.

(** [_fix_research_links_in_file] *)
Definition _fix_research_links_in_file (source_file : string) (links : list link_info)
  : M bool :=
  let file_path := path_div docs_dir source_file in
  try_except
    (s <- get;;
     original_content <- lift (read_text (fx_fs s) file_path);;
     content <- lift (sub_all links original_content);;
     if negb (String.eqb content original_content) then
       if dry_run then ret true else
       _ <- fs_op (fun f => write_text f file_path content);;
       _ <- add_updated file_path;;
       ret true
     else ret false)
    (fun _ => ret false).

Fixpoint fix_research_groups (groups : list (string * list link_info)) (n : nat) : M nat :=
  match groups with
  | [] => ret n
  | (source_file, links) :: rest =>
      b <- _fix_research_links_in_file source_file links;;
      fix_research_groups rest (if b then n + List.length links else n)
  end.

(** [fix_research_links] *)
Definition fix_research_links (research : list link_info) : M nat :=
  fix_research_groups (group_by_file research []) 0.

Definition sample_dir : path :=
  path_div (path_div (path_div (parent docs_dir) "sample-project") "docs") "adrs".

Definition sample_adrs : list (string * string) :=
  [("001-database-architecture.md", "Database Architecture Decision");
   ("002-api-authentication.md", "API Authentication Strategy");
   ("003-legacy-data-migration.md", "Legacy Data Migration Approach")].

Fixpoint create_sample_adrs (adrs : list (string * string)) (n : nat) : M nat :=
  match adrs with
  | [] => ret n
  | (filename, title) :: rest =>
      let adr_path := path_div sample_dir filename in
      s <- get;;
      if path_exists (fx_fs s) adr_path then create_sample_adrs rest n else
      let content := _generate_sample_adr title filename in
      if dry_run then create_sample_adrs rest (S n) else
      m <- try_except (_ <- fs_op (fun f => write_text f adr_path content);; ret (S n))
                      (fun _ => ret n);;
      create_sample_adrs rest m
  end.

(** [fix_sample_project_links]; its argument is not consulted. *)
Definition fix_sample_project_links (sample_links : list link_info) : M nat :=
  _ <- (if dry_run then ret tt else fs_op (fun f => mkdir_p f sample_dir));;
  create_sample_adrs sample_adrs 0.

Record validation := mkValidation {
  files_created : nat;
  files_updated : nat;
  remaining_issues : nat;
  remaining_by_category : list (string * nat);
  created_file_names : list string;
  updated_file_names : list string
}.

Definition by_category (b : broken_links) : list (string * nat) :=
  [("missing_files", List.length (missing_files b));
   ("broken_anchors", List.length (broken_anchors b));
   ("research_links", List.length (research_links b));
   ("sample_project_links", List.length (sample_project_links b));
   ("malformed_links", List.length (malformed_links b))].

(** [validate_fixes] *)
Definition validate_fixes : M validation :=
  s <- get;;
  let remaining := analyze_broken_links docs_dir (fx_fs s) in
  ret (mkValidation (List.length (created_files s)) (List.length (updated_files s))
                    (total_issues remaining) (by_category remaining)
                    (map path_str (created_files s)) (map path_str (updated_files s))).

Record summary := mkSummary {
  initial_issues : nat;
  fixed_missing_files : nat;
  fixed_research_links : nat;
  fixed_sample_links : nat;
  total_fixes : nat;
  sum_validation : validation;
  sum_dry_run : bool
}.

(** [run_comprehensive_fix] *)
Definition run_comprehensive_fix : M summary :=
  s <- get;;
  let broken := analyze_broken_links docs_dir (fx_fs s) in
  missing_files_fixed <- fix_missing_files (missing_files broken);;
  research_links_fixed <- fix_research_links (research_links broken);;
  sample_links_fixed <- fix_sample_project_links (sample_project_links broken);;
  validation_report <- validate_fixes;;
  ret (mkSummary (total_issues broken) missing_files_fixed research_links_fixed
                 sample_links_fixed
                 (missing_files_fixed + research_links_fixed + sample_links_fixed)
                 validation_report dry_run).

End Fixer.

(** A fresh [DocumentationLinkFixer(docs_dir, dry_run)] running
    [run_comprehensive_fix] on a filesystem. *)
Definition run_fix (docs_dir : path) (dry_run : bool) (f : fs) : result summary * fs :=
  let '(r, s) := run_comprehensive_fix docs_dir dry_run (mkFixer f [] []) in (r, fx_fs s).

(* ------------------------------------------------------------------ *)
(** ** Concrete documentation trees *)

Definition docs_root : path := Path "/docs".

(** One document holding only [[x](./missing-page)]. *)
Definition tree_missing_page : fs :=
  mkFs [["docs"]] [(["docs"; "index.md"], "[x](./missing-page)" ++ nl)].

(** Only ok links: external, anchor, mail, a relative path with its
    extension and an extension-less reference to an existing document. *)
Definition tree_all_ok : fs :=
  mkFs [["docs"]]
    [(["docs"; "index.md"],
      "[a](https://example.com) [b](#top) [m](mailto:me@example.com) "
      ++ "[c](./guide.md) [d](./other)" ++ nl);
     (["docs"; "guide.md"], "# Guide" ++ nl);
     (["docs"; "other.md"], "# Other" ++ nl)].

(** Two links to one extension-less missing target. *)
Definition tree_duplicate : fs :=
  mkFs [["docs"]] [(["docs"; "index.md"], "[a](./missing-page) [b](./missing-page)" ++ nl)].

(** A dotted extension-less reference whose document exists. *)
Definition tree_dotted : fs :=
  mkFs [["docs"]]
    [(["docs"; "index.md"], "[r](./v1.2)" ++ nl);
     (["docs"; "v1.2.md"], "# Release 1.2" ++ nl)].

(** [./v1.2] next to a [v1.md]: [with_suffix] replaces the [.2]. *)
Definition tree_dotted_v1 : fs :=
  mkFs [["docs"]]
    [(["docs"; "index.md"], "[r](./v1.2)" ++ nl);
     (["docs"; "v1.md"], "# Release 1" ++ nl)].

Definition index_md : path := Path "/docs/index.md".

(** Result projections used to read reports. *)
Definition summary_of (r : result summary * fs) : option summary :=
  match fst r with Ok s => Some s | Err _ => None end.

Definition created_count (r : result summary * fs) : option nat :=
  option_map (fun s => files_created (sum_validation s)) (summary_of r).

(** Concrete trees for the further properties. *)

(** The three sample ADRs already in place next to [/docs]. *)
Definition tree_with_samples : fs :=
  mkFs [["docs"]; ["sample-project"]; ["sample-project"; "docs"];
        ["sample-project"; "docs"; "adrs"]]
    [(["docs"; "index.md"], "# Index" ++ nl);
     (["sample-project"; "docs"; "adrs"; "001-database-architecture.md"], "# 001" ++ nl);
     (["sample-project"; "docs"; "adrs"; "002-api-authentication.md"], "# 002" ++ nl);
     (["sample-project"; "docs"; "adrs"; "003-legacy-data-migration.md"], "# 003" ++ nl)].

(** One research link. *)
Definition tree_research : fs :=
  mkFs [["docs"]]
    [(["docs"; "index.md"], "See [r](./perform_research_research_1.md) here." ++ nl)].

(** Two research links in one document, the second with the unknown
    escape [\q] in its target. *)
Definition tree_bad_escape : fs :=
  mkFs [["docs"]]
    [(["docs"; "index.md"],
      "[a](perform_research_research_1) [b](perform_research_research_"
      ++ String bs (String "q" EmptyString) ++ ")" ++ nl)].

(** Helpers of the further properties: sizes of groups, the research
    comment, group well-formedness, the [files_to_update] step, and the
    frame condition on [created_files]. *)

Definition group_total (gs : list (string * list link_info)) : nat :=
  fold_right (fun g acc => List.length (snd g) + acc) 0 gs.

Definition research_replacement (url : string) : string :=
  "<!-- TODO: Fix research link: " ++ url ++ " -->".

Definition groups_ok (gs : list (string * list link_info)) : Prop :=
  NoDup (map fst gs) /\ Forall (fun g => Forall (fun li => li_file li = fst g) (snd g)) gs.

Definition add_to_group (l : link_info) (e : string * list link_info)
  : string * list link_info :=
  if String.eqb (fst e) (li_file l) then (fst e, snd e ++ [l])%list else e.

Definition keeps_created {A} (m : M A) : Prop :=
  forall s, created_files (snd (m s)) = created_files s.

Definition true_count (r : result bool) : nat :=
  match r with Ok true => 1 | _ => 0 end.

(* ------------------------------------------------------------------ *)
(** * Properties *)

(** ** Helper lemmas *)

Lemma resolve_some (md : path) (url : string) :
  exists p, _resolve_link_path md url = Some p.
Proof.
  unfold _resolve_link_path.
  destruct (py_startswith url "./"); [eexists; reflexivity|].
  destruct (py_startswith url "../"); eexists; reflexivity.
Qed.

Lemma try_link_nonempty (s text url rest : string) :
  try_link s = Some (text, url, rest) -> url <> "".
Proof.
  unfold try_link.
  destruct (take_until "]"%char s) as [[t [|a r]]|]; try discriminate.
  destruct (Ascii.eqb a "("%char); try discriminate.
  destruct (take_until ")"%char r) as [[u rest']|]; try discriminate.
  destruct (String.eqb u "") eqn:E; try discriminate.
  intros H; inversion H; subst.
  intros ->. discriminate E.
Qed.

Lemma findall_fuel_nonempty (fuel : nat) (s : string) :
  Forall (fun tu => snd tu <> "") (findall_fuel fuel s).
Proof.
  revert s; induction fuel as [|k IH]; intros s; simpl; [constructor|].
  destruct s as [|a r]; [constructor|].
  destruct (Ascii.eqb a "["%char); [|apply IH].
  destruct (try_link r) as [[[text url] rest]|] eqn:E; [|apply IH].
  constructor; [apply (try_link_nonempty _ _ _ _ E)|apply IH].
Qed.

(** ** C1 *)

(** C1: on a tree whose links are all ok (external, anchor, mail, a
    relative path with its extension, an extension-less reference to an
    existing document) the scan reports no broken link, yet the run
    reports three sample fixes and writes the three sample ADRs. *)
Theorem sample_scaffolder_runs_on_ok_tree :
  analyze_broken_links docs_root tree_all_ok = empty_broken /\
  option_map fixed_sample_links (summary_of (run_fix docs_root false tree_all_ok)) = Some 3 /\
  find_file (snd (run_fix docs_root false tree_all_ok))
    ["sample-project"; "docs"; "adrs"; "001-database-architecture.md"]
  = Some (_generate_sample_adr "Database Architecture Decision" "001-database-architecture.md") /\
  find_file tree_all_ok
    ["sample-project"; "docs"; "adrs"; "001-database-architecture.md"] = None.
Proof. repeat split; vm_compute; reflexivity. Qed.

(** ** C2 *)


(** ** C3 *)

(** C3, counterexample: on the one-link tree a dry run reports
    [files_created = 0] while the real run reports [1]. *)
Lemma dry_run_counts_differ :
  created_count (run_fix docs_root true tree_missing_page) = Some 0 /\
  created_count (run_fix docs_root false tree_missing_page) = Some 1 /\
  created_count (run_fix docs_root true tree_missing_page)
  <> created_count (run_fix docs_root false tree_missing_page).
Proof. vm_compute. split; [reflexivity|split; [reflexivity|discriminate]]. Qed.

(** ** C4 *)

(** C4, counterexample: after a first run on the one-link tree, the
    second run creates two more files. *)
Lemma second_run_creates_files :
  created_count (run_fix docs_root false (snd (run_fix docs_root false tree_missing_page)))
  = Some 2.
Proof. vm_compute. reflexivity. Qed.

(** ** C5 *)

(** C5, counterexample: the recorded resolved path carries no [.md] and
    the validation re-scan reports two remaining issues. *)
Lemma missing_page_scenario_differs :
  map li_resolved_path (missing_files (analyze_broken_links docs_root tree_missing_page))
  <> [Some "/docs/missing-page.md"] /\
  option_map (fun s => remaining_issues (sum_validation s))
    (summary_of (run_fix docs_root false tree_missing_page)) <> Some 0.
Proof. vm_compute. split; discriminate. Qed.

(** C5: for [/docs/index.md] holding only [[x](./missing-page)], the scan
    records one [missing_files] entry whose resolved path is
    [/docs/missing-page]; the run writes [/docs/missing-page.md] with the
    generic template headed [# Missing Page]; and the validation re-scan
    reports two remaining issues, the template's [../reference/] and
    [../how-to-guides/] links. *)
Theorem missing_page_scenario :
  map li_resolved_path (missing_files (analyze_broken_links docs_root tree_missing_page))
  = [Some "/docs/missing-page"] /\
  find_file (snd (run_fix docs_root false tree_missing_page)) ["docs"; "missing-page.md"]
  = Some (_generate_generic_template "Missing Page" "missing-page") /\
  py_startswith (_generate_generic_template "Missing Page" "missing-page")
                ("# Missing Page" ++ nl) = true /\
  option_map (fun s => remaining_issues (sum_validation s))
    (summary_of (run_fix docs_root false tree_missing_page)) = Some 2 /\
  map li_url (missing_files (analyze_broken_links docs_root
                               (snd (run_fix docs_root false tree_missing_page))))
  = ["../reference/"; "../how-to-guides/"].
Proof. repeat split; vm_compute; reflexivity. Qed.

(** ** C6 *)

(** C6, counterexample: [./v1.2] resolves to the missing [/docs/v1.2]
    while [/docs/v1.2.md] exists, and the link is still reported in
    [missing_files]. *)
Lemma dotted_reference_reported_missing :
  path_exists tree_dotted (Path "/docs/v1.2") = false /\
  path_exists tree_dotted (Path "/docs/v1.2.md") = true /\
  map li_url (missing_files (analyze_broken_links docs_root tree_dotted)) = ["./v1.2"].
Proof. repeat split; vm_compute; reflexivity. Qed.

(** C6: for a target with no external prefix and no marker that does
    not end in [.md], if the resolved path with its last suffix replaced
    by [.md] (appended when the name has no suffix) exists, the link is
    not collected in any category. *)
Theorem md_variant_exists_is_ok (docs : path) (f : fs) (md : path)
    (text url : string) (tp md_target : path) :
  is_external url = false ->
  py_contains url research_marker = false ->
  py_contains url sample_marker = false ->
  _resolve_link_path md url = Some tp ->
  py_endswith url ".md" = false ->
  with_suffix tp ".md" = Ok md_target ->
  path_exists f md_target = true ->
  _categorize_link docs f md text url = Ok None.
Proof.
  intros Hext Hres Hsam Hrv Hend Hws Hex.
  unfold _categorize_link.
  rewrite Hext, Hres, Hsam, Hrv.
  unfold _categorize_resolved.
  destruct (path_exists f tp); [reflexivity|].
  rewrite Hend. simpl. rewrite Hws, Hex. reflexivity.
Qed.

(** ** C7 *)

(** C7: the external-prefix test comes first and wins whatever the rest
    of the target holds; then the research marker, whatever the sample
    marker and the filesystem; then the sample marker, whatever the
    filesystem. *)
Theorem classification_priority (docs : path) (f : fs) (md : path) (text url : string) :
  ((py_startswith url "http" = true \/ py_startswith url "https" = true \/
    py_startswith url "mailto:" = true \/ py_startswith url "#" = true) ->
   _categorize_link docs f md text url = Ok None) /\
  (is_external url = false -> py_contains url research_marker = true ->
   _categorize_link docs f md text url
   = Ok (Some (ResearchLinks, mk_record docs f md text url None))) /\
  (is_external url = false -> py_contains url research_marker = false ->
   py_contains url sample_marker = true ->
   _categorize_link docs f md text url
   = Ok (Some (SampleProjectLinks, mk_record docs f md text url None))).
Proof.
  unfold _categorize_link, is_external.
  repeat split.
  - intros [H|[H|[H|H]]]; rewrite H; repeat rewrite orb_true_r; reflexivity.
  - intros He Hr. rewrite He, Hr. reflexivity.
  - intros He Hr Hs. rewrite He, Hr, Hs. reflexivity.
Qed.

(** ** C8 *)

(** C8: with two links to the extension-less missing target
    [./missing-page], the created-set test is made on [/docs/missing-page]
    while the set holds [/docs/missing-page.md], so both records write
    the stub and count as created. *)
Theorem duplicate_target_created_twice :
  map (initial_target docs_root) (missing_files (analyze_broken_links docs_root tree_duplicate))
  = [Path "/docs/missing-page"; Path "/docs/missing-page"] /\
  option_map fixed_missing_files (summary_of (run_fix docs_root false tree_duplicate)) = Some 2 /\
  option_map (fun s => created_file_names (sum_validation s))
    (summary_of (run_fix docs_root false tree_duplicate)) = Some ["/docs/missing-page.md"].
Proof. repeat split; vm_compute; reflexivity. Qed.

(** ** C9 *)

(** C9, counterexample: the empty target resolves to the document's
    directory. *)
Lemma empty_target_resolves :
  _resolve_link_path index_md "" = Some (Path "/docs").
Proof. vm_compute. reflexivity. Qed.

(** C9: the resolver takes no filesystem and returns a path for every
    target string; the empty target gives the document's parent. *)
Theorem resolver_total :
  (forall md url, exists p, _resolve_link_path md url = Some p) /\
  (forall md, _resolve_link_path md "" = Some (parent md)).
Proof.
  split; [exact resolve_some|].
  intros md. unfold _resolve_link_path, path_div. simpl.
  destruct (parent md) as [r ps]. simpl. rewrite app_nil_r. reflexivity.
Qed.

(** ** C10 *)

(** C10: every target the extractor yields is non-empty, [[x]()] yields
    nothing, and the resolver returns a path for every extracted target. *)
Theorem extracted_targets_nonempty :
  (forall content, Forall (fun tu => snd tu <> "") (link_matches content)) /\
  link_matches "[x]()" = [] /\
  (forall content md,
      Forall (fun tu => _resolve_link_path md (snd tu) <> None) (link_matches content)).
Proof.
  split; [intros; apply findall_fuel_nonempty|].
  split; [vm_compute; reflexivity|].
  intros content md. apply Forall_forall. intros tu _.
  destruct (resolve_some md (snd tu)) as [p ->]. discriminate.
Qed.

(** ** The dry run

    A small Hoare logic over [M] for one fixed invariant: the files of
    the store are [F] and both tracking sets are empty.  Each triple
    also covers the state left by a raised exception. *)

Section DryRun.

Variable docs : path.
Variable F : list (key * string).

Definition dry_inv (s : fixer) : Prop :=
  fs_files (fx_fs s) = F /\ created_files s = [] /\ updated_files s = [].

Definition dry_post {A} (m : M A) (Q : A -> Prop) : Prop :=
  forall s, dry_inv s -> dry_inv (snd (m s)) /\ (forall a, fst (m s) = Ok a -> Q a).

Lemma dry_ret {A} (a : A) (Q : A -> Prop) : Q a -> dry_post (ret a) Q.
Proof. intros HQ s Hs. split; [exact Hs|]. intros a' H. inversion H; subst. exact HQ. Qed.

Lemma dry_bind {A B} (m : M A) (k : A -> M B) (Q1 : A -> Prop) (Q2 : B -> Prop) :
  dry_post m Q1 -> (forall a, Q1 a -> dry_post (k a) Q2) -> dry_post (bind m k) Q2.
Proof.
  intros Hm Hk s Hs. unfold bind.
  destruct (Hm s Hs) as [Hinv HQ].
  destruct (m s) as [[a|e] s'] eqn:E; simpl in *.
  - apply Hk; [apply HQ; reflexivity|exact Hinv].
  - split; [exact Hinv|discriminate].
Qed.

Lemma dry_weaken {A} (m : M A) (Q Q' : A -> Prop) :
  dry_post m Q -> (forall a, Q a -> Q' a) -> dry_post m Q'.
Proof.
  intros Hm HQ s Hs. destruct (Hm s Hs) as [H1 H2]. split; [exact H1|].
  intros a Ha. apply HQ, H2, Ha.
Qed.

Lemma dry_get : dry_post get dry_inv.
Proof. intros s Hs. split; [exact Hs|]. intros a H. inversion H; subst. exact Hs. Qed.

Lemma dry_lift {A} (r : result A) : dry_post (lift r) (fun _ => True).
Proof. intros s Hs. split; [exact Hs|]. intros; exact I. Qed.

Lemma dry_try {A} (m : M A) (h : string -> M A) (Q : A -> Prop) :
  dry_post m Q -> (forall e, dry_post (h e) Q) -> dry_post (try_except m h) Q.
Proof.
  intros Hm Hh s Hs. unfold try_except.
  destruct (Hm s Hs) as [Hinv HQ].
  destruct (m s) as [[a|e] s'] eqn:E; simpl in *.
  - split; [exact Hinv|exact HQ].
  - apply Hh, Hinv.
Qed.

Lemma mkdir_walk_files (f f' : fs) (cur : key) (ps : list string) :
  mkdir_walk f cur ps = Ok f' -> fs_files f' = fs_files f.
Proof.
  revert f cur; induction ps as [|x rest IH]; intros f cur H; simpl in H.
  - inversion H; reflexivity.
  - destruct (String.eqb x ".."); [exact (IH _ _ H)|].
    destruct (is_dir f (cur ++ [x])%list); [exact (IH _ _ H)|].
    destruct (is_file f (cur ++ [x])%list); [discriminate|].
    exact (IH _ _ H).
Qed.

Lemma dry_mkdir (p : path) : dry_post (fs_op (fun f => mkdir_p f p)) (fun _ => True).
Proof.
  intros s Hs. unfold fs_op, mkdir_p.
  destruct (mkdir_walk (fx_fs s) [] (p_parts p)) as [f'|e] eqn:E; simpl.
  - destruct Hs as [H1 H2]. split; [|intros; exact I].
    split; [|exact H2]. simpl. rewrite (mkdir_walk_files _ _ _ _ E). exact H1.
  - split; [exact Hs|discriminate].
Qed.

Lemma dry_create_missing_file (fi : link_info) (t : string) :
  dry_post (_create_missing_file docs true fi t) (fun _ => True).
Proof.
  unfold _create_missing_file. cbv zeta.
  apply (dry_bind _ _ dry_inv). { apply dry_get. }
  intros s _.
  destruct (existsb _ _). { apply dry_ret; exact I. }
  apply (dry_bind _ _ (fun _ => True)).
  { destruct (String.eqb _ _); [apply dry_lift|apply dry_ret; exact I]. }
  intros tp _.
  apply (dry_bind _ _ (fun _ => True)). { apply dry_mkdir. }
  intros _ _. apply dry_ret; exact I.
Qed.

Lemma dry_create_all (t : string) (files : list link_info) (n : nat) :
  dry_post (create_all docs true t files n) (fun _ => True).
Proof.
  revert n; induction files as [|fi rest IH]; intros n; simpl.
  - apply dry_ret; exact I.
  - apply (dry_bind _ _ (fun _ => True)); [apply dry_create_missing_file|].
    intros b _. apply IH.
Qed.

Lemma dry_create_groups (gs : list (string * list link_info)) (n : nat) :
  dry_post (create_groups docs true gs n) (fun _ => True).
Proof.
  revert n; induction gs as [|[t files] rest IH]; intros n; simpl.
  - apply dry_ret; exact I.
  - apply (dry_bind _ _ (fun _ => True)); [apply dry_create_all|].
    intros m _. apply IH.
Qed.

Lemma dry_fix_research_file (src : string) (links : list link_info) :
  dry_post (_fix_research_links_in_file docs true src links) (fun _ => True).
Proof.
  unfold _fix_research_links_in_file. cbv zeta.
  apply dry_try; [|intros; apply dry_ret; exact I].
  apply (dry_bind _ _ dry_inv); [apply dry_get|]. intros s _.
  apply (dry_bind _ _ (fun _ => True)); [apply dry_lift|]. intros c0 _.
  apply (dry_bind _ _ (fun _ => True)); [apply dry_lift|]. intros c _.
  destruct (negb _); apply dry_ret; exact I.
Qed.

Lemma dry_fix_research_groups (gs : list (string * list link_info)) (n : nat) :
  dry_post (fix_research_groups docs true gs n) (fun _ => True).
Proof.
  revert n; induction gs as [|[src links] rest IH]; intros n; simpl.
  - apply dry_ret; exact I.
  - apply (dry_bind _ _ (fun _ => True)); [apply dry_fix_research_file|].
    intros b _. apply IH.
Qed.

Lemma dry_create_sample_adrs (adrs : list (string * string)) (n : nat) :
  dry_post (create_sample_adrs docs true adrs n) (fun _ => True).
Proof.
  revert n; induction adrs as [|[fn title] rest IH]; intros n; simpl.
  - apply dry_ret; exact I.
  - apply (dry_bind _ _ dry_inv); [apply dry_get|]. intros s _.
    destruct (path_exists _ _); apply IH.
Qed.

Lemma dry_validate :
  dry_post (validate_fixes docs)
           (fun v => files_created v = 0 /\ files_updated v = 0).
Proof.
  unfold validate_fixes.
  apply (dry_bind _ _ dry_inv); [apply dry_get|].
  intros s [_ [Hc Hu]]. apply dry_ret. simpl. rewrite Hc, Hu. split; reflexivity.
Qed.

Lemma dry_run_post :
  dry_post (run_comprehensive_fix docs true)
           (fun r => files_created (sum_validation r) = 0
                     /\ files_updated (sum_validation r) = 0).
Proof.
  unfold run_comprehensive_fix. cbv zeta.
  apply (dry_bind _ _ dry_inv); [apply dry_get|]. intros s _.
  apply (dry_bind _ _ (fun _ => True)); [apply dry_create_groups|]. intros n1 _.
  apply (dry_bind _ _ (fun _ => True)); [apply dry_fix_research_groups|]. intros n2 _.
  apply (dry_bind _ _ (fun _ => True)).
  { unfold fix_sample_project_links.
    apply (dry_bind _ _ (fun _ => True)); [apply dry_ret; exact I|].
    intros _ _. apply dry_create_sample_adrs. }
  intros n3 _.
  apply (dry_bind _ _ (fun v => files_created v = 0 /\ files_updated v = 0));
    [apply dry_validate|].
  intros v Hv. apply dry_ret. exact Hv.
Qed.

End DryRun.

(** ** C3 *)

(** C3: a dry run leaves every file of the tree as it was (no file is
    created or rewritten), and the validation it reports has
    [files_created = 0] and [files_updated = 0]. *)
Theorem dry_run_writes_nothing (docs : path) (f : fs) :
  fs_files (snd (run_fix docs true f)) = fs_files f /\
  match fst (run_fix docs true f) with
  | Ok s => files_created (sum_validation s) = 0 /\ files_updated (sum_validation s) = 0
  | Err _ => True
  end.
Proof.
  unfold run_fix.
  assert (H0 : dry_inv (fs_files f) (mkFixer f [] [])) by (repeat split).
  destruct (dry_run_post docs (fs_files f) (mkFixer f [] []) H0) as [[H1 _] H2].
  destruct (run_comprehensive_fix docs true (mkFixer f [] [])) as [r s]; simpl in *.
  split; [exact H1|].
  destruct r as [sm|e]; [apply H2; reflexivity|exact I].
Qed.

(** ** C4 *)

(** C4: once a file exists at the stub path of a link (its resolved
    path, with [.md] appended when the name has no suffix), re-classifying
    the link collects nothing, provided the resolved name has a suffix or
    the target does not end in [.md].  After a first run on the
    one-link tree, the second run's scan collects the stub's template
    links [../reference/] and [../how-to-guides/] as missing files; the
    second run creates [/docs/../how-to-guides.md] and
    [/docs/../reference.md] for them and then reports no remaining
    issue. *)
Theorem rescan_sees_stub :
  (forall docs f md text url tp stub,
      is_external url = false ->
      py_contains url research_marker = false ->
      py_contains url sample_marker = false ->
      _resolve_link_path md url = Some tp ->
      (if String.eqb (suffix tp) "" then with_suffix tp ".md" else Ok tp) = Ok stub ->
      path_exists f stub = true ->
      (suffix tp <> "" \/ py_endswith url ".md" = false) ->
      _categorize_link docs f md text url = Ok None) /\
  map li_url (missing_files (analyze_broken_links docs_root
                               (snd (run_fix docs_root false tree_missing_page))))
  = ["../reference/"; "../how-to-guides/"] /\
  created_count (run_fix docs_root false (snd (run_fix docs_root false tree_missing_page)))
  = Some 2 /\
  option_map (fun s => created_file_names (sum_validation s))
    (summary_of (run_fix docs_root false (snd (run_fix docs_root false tree_missing_page))))
  = Some ["/docs/../how-to-guides.md"; "/docs/../reference.md"] /\
  option_map (fun s => remaining_issues (sum_validation s))
    (summary_of (run_fix docs_root false (snd (run_fix docs_root false tree_missing_page))))
  = Some 0.
Proof.
  split; [|repeat split; vm_compute; reflexivity].
  intros docs f md text url tp stub Hext Hres Hsam Hrv Hstub Hex Hsuf.
  unfold _categorize_link. rewrite Hext, Hres, Hsam, Hrv.
  unfold _categorize_resolved.
  destruct (path_exists f tp) eqn:Etp; [reflexivity|].
  destruct (String.eqb (suffix tp) "") eqn:Es.
  - destruct Hsuf as [Hne|Hend].
    + apply String.eqb_eq in Es. contradiction.
    + rewrite Hend. simpl. rewrite Hstub, Hex. reflexivity.
  - inversion Hstub; subst. rewrite Etp in Hex. discriminate.
Qed.

(** ** Witnesses *)


Lemma rescan_sees_stub_witness :
  _categorize_link docs_root (snd (run_fix docs_root false tree_missing_page))
                   index_md "x" "./missing-page" = Ok None.
Proof.
  apply (proj1 rescan_sees_stub docs_root (snd (run_fix docs_root false tree_missing_page))
           index_md "x" "./missing-page" (Path "/docs/missing-page")
           (Path "/docs/missing-page.md"));
    try (vm_compute; reflexivity).
  right. vm_compute. reflexivity.
Defined.

Lemma md_variant_exists_is_ok_witness :
  _categorize_link docs_root tree_dotted_v1 index_md "r" "./v1.2" = Ok None.
Proof.
  apply (md_variant_exists_is_ok docs_root tree_dotted_v1 index_md "r" "./v1.2"
           (Path "/docs/v1.2") (Path "/docs/v1.md"));
    vm_compute; reflexivity.
Defined.

Lemma classification_priority_witness :
  _categorize_link docs_root tree_all_ok index_md "p"
                   "https://example.com/perform_research_research_1" = Ok None /\
  _categorize_link docs_root tree_all_ok index_md "q" "./perform_research_research_2.md"
  = Ok (Some (ResearchLinks, mk_record docs_root tree_all_ok index_md "q"
                                       "./perform_research_research_2.md" None)).
Proof.
  split.
  - apply (proj1 (classification_priority docs_root tree_all_ok index_md "p"
                    "https://example.com/perform_research_research_1")).
    left. vm_compute. reflexivity.
  - apply (proj1 (proj2 (classification_priority docs_root tree_all_ok index_md "q"
                           "./perform_research_research_2.md")));
      vm_compute; reflexivity.
Defined.

(* ------------------------------------------------------------------ *)
(** * Further properties of the fixer *)

(** ** The classifier fills three of the five lists *)

Lemma categorize_resolved_cat (docs : path) (f : fs) (md : path) (t u : string)
    (tp : option path) (c : category) (li : link_info) :
  _categorize_resolved docs f md t u tp = Ok (Some (c, li)) -> c = MissingFiles.
Proof.
  unfold _categorize_resolved. destruct tp as [p|]; [|discriminate].
  destruct (negb (path_exists f p)); [|discriminate].
  destruct (negb (py_endswith u ".md")).
  - destruct (with_suffix p ".md"); [|discriminate].
    destruct (path_exists f p0); [discriminate|]. intros H; inversion H; reflexivity.
  - intros H; inversion H; reflexivity.
Qed.

Lemma categorize_link_cat (docs : path) (f : fs) (md : path) (t u : string)
    (c : category) (li : link_info) :
  _categorize_link docs f md t u = Ok (Some (c, li)) ->
  c = MissingFiles \/ c = ResearchLinks \/ c = SampleProjectLinks.
Proof.
  unfold _categorize_link.
  destruct (is_external u); [discriminate|].
  destruct (py_contains u research_marker); [intros H; inversion H; auto|].
  destruct (py_contains u sample_marker); [intros H; inversion H; auto|].
  intros H. left. exact (categorize_resolved_cat _ _ _ _ _ _ _ _ H).
Qed.

Lemma categorize_all_unused (docs : path) (f : fs) (md : path)
    (ms : list (string * string)) (b : broken_links) :
  broken_anchors b = [] -> malformed_links b = [] ->
  broken_anchors (categorize_all docs f md ms b) = [] /\
  malformed_links (categorize_all docs f md ms b) = [].
Proof.
  revert b; induction ms as [|[t u] rest IH]; intros b Ha Hm; simpl; [auto|].
  destruct (_categorize_link docs f md t u) as [o|e] eqn:E.
  - destruct o as [[c li]|].
    + apply IH;
        destruct (categorize_link_cat _ _ _ _ _ _ _ E) as [ -> | [ -> | -> ] ]; simpl; assumption.
    + apply IH; assumption.
  - auto.
Qed.

(** X1: the classifier never fills [broken_anchors] or [malformed_links]:
    after any scan both lists are empty. *)
Theorem analyze_unused_categories_empty (docs : path) (f : fs) :
  broken_anchors (analyze_broken_links docs f) = [] /\
  malformed_links (analyze_broken_links docs f) = [].
Proof.
  unfold analyze_broken_links.
  assert (G : forall l b, broken_anchors b = [] -> malformed_links b = [] ->
     broken_anchors (fold_left (fun b md_file =>
        match read_text f md_file with
        | Ok content => categorize_all docs f md_file (link_matches content) b
        | Err _ => b end) l b) = [] /\
     malformed_links (fold_left (fun b md_file =>
        match read_text f md_file with
        | Ok content => categorize_all docs f md_file (link_matches content) b
        | Err _ => b end) l b) = []).
  { induction l as [|md rest IH]; intros b Ha Hm; simpl; [auto|].
    apply IH; destruct (read_text f md);
      try (apply categorize_all_unused; assumption); assumption. }
  apply G; reflexivity.
Qed.

(** ** The extractor *)

Lemma take_until_spec (c : ascii) (s w r : string) :
  take_until c s = Some (w, r) ->
  ~ In c (list_ascii_of_string w) /\ s = (w ++ String c r)%string.
Proof.
  revert w r; induction s as [|a s IH]; intros w r H; simpl in H; [discriminate|].
  destruct (Ascii.eqb a c) eqn:E.
  - inversion H; subst. apply Ascii.eqb_eq in E. subst. split; [intros []|reflexivity].
  - destruct (take_until c s) as [[w' r']|] eqn:T; [|discriminate].
    inversion H; subst. destruct (IH _ _ eq_refl) as [Hn ->].
    split; [|reflexivity].
    simpl. intros [Ha|Hin]; [subst; rewrite Ascii.eqb_refl in E; discriminate|].
    exact (Hn Hin).
Qed.

Lemma try_link_chars (s text url rest : string) :
  try_link s = Some (text, url, rest) ->
  ~ In "]"%char (list_ascii_of_string text) /\ ~ In ")"%char (list_ascii_of_string url).
Proof.
  unfold try_link.
  destruct (take_until "]"%char s) as [[t [|a r]]|] eqn:T1; try discriminate.
  destruct (Ascii.eqb a "("%char); [|discriminate].
  destruct (take_until ")"%char r) as [[u rest']|] eqn:T2; [|discriminate].
  destruct (String.eqb u ""); [discriminate|].
  intros H; inversion H; subst.
  split; [exact (proj1 (take_until_spec _ _ _ _ T1))|exact (proj1 (take_until_spec _ _ _ _ T2))].
Qed.

(** X2: every link the extractor yields has a display text without
    [']'] and a target without [')'], as the pattern's character classes
    require. *)
Theorem extracted_link_chars (content : string) :
  Forall (fun tu => ~ In "]"%char (list_ascii_of_string (fst tu)) /\
                    ~ In ")"%char (list_ascii_of_string (snd tu)))
         (link_matches content).
Proof.
  unfold link_matches. generalize (String.length content) as fuel.
  intros fuel. revert content; induction fuel as [|k IH]; intros s; simpl; [constructor|].
  destruct s as [|a r]; [constructor|].
  destruct (Ascii.eqb a "["%char); [|apply IH].
  destruct (try_link r) as [[[text url] rest]|] eqn:E; [|apply IH].
  constructor; [exact (try_link_chars _ _ _ _ E)|apply IH].
Qed.

(** X3: a document with no ['['] yields no link. *)
Theorem no_bracket_no_links (content : string) :
  ~ In "["%char (list_ascii_of_string content) -> link_matches content = [].
Proof.
  unfold link_matches. generalize (String.length content) as fuel.
  intros fuel. revert content; induction fuel as [|k IH]; intros s Hs; simpl; [reflexivity|].
  destruct s as [|a r]; [reflexivity|].
  destruct (Ascii.eqb a "["%char) eqn:E.
  - apply Ascii.eqb_eq in E. subst. exfalso. apply Hs. left. reflexivity.
  - apply IH. intros Hin. apply Hs. right. exact Hin.
Qed.

Lemma no_bracket_no_links_witness :
  ~ In "["%char (list_ascii_of_string "plain (text) only") /\
  link_matches "plain (text) only" = [].
Proof.
  assert (H : ~ In "["%char (list_ascii_of_string "plain (text) only"))
    by (simpl; intuition discriminate).
  split; [exact H|exact (no_bracket_no_links _ H)].
Defined.

(** ** Grouping of [missing_files] records *)

Lemma file_type_cases (url : string) :
  file_type_of url = "how_to_guides" \/ file_type_of url = "reference" \/
  file_type_of url = "explanation" \/ file_type_of url = "tutorials" \/
  file_type_of url = "other".
Proof.
  unfold file_type_of.
  destruct (py_contains url "how-to-guides/"); [auto|].
  destruct (py_contains url "reference/"); [auto|].
  destruct (py_contains url "explanation/"); [auto|].
  destruct (py_contains url "tutorials/"); auto.
Qed.


Lemma group_missing_total (missing : list link_info) :
  group_total (_group_missing_files missing) = List.length missing.
Proof.
  induction missing as [|li rest IH]; [reflexivity|].
  unfold group_total, _group_missing_files, file_types in *. simpl in *.
  destruct (file_type_cases (li_url li)) as [H|[H|[H|[H|H]]]]; rewrite H; simpl; lia.
Qed.

(** Moves the element at the head of the right-hand side across the
    common prefixes of both sides. *)
Ltac perm_pull :=
  repeat match goal with
         | |- Permutation ?x ?x => reflexivity
         | |- Permutation (?a :: ?x) (?a :: ?y) => apply perm_skip
         | |- Permutation (?l ++ ?x) (?a :: ?l ++ ?y) =>
             etransitivity; [|apply Permutation_sym, Permutation_middle];
             apply Permutation_app_head
         end.

Lemma group_missing_perm (missing : list link_info) :
  Permutation (concat (map snd (_group_missing_files missing))) missing.
Proof.
  induction missing as [|li rest IH]; [reflexivity|].
  unfold _group_missing_files, file_types in *. simpl in *.
  etransitivity; [|apply perm_skip; exact IH].
  destruct (file_type_cases (li_url li)) as [H|[H|[H|[H|H]]]]; rewrite H; simpl;
    perm_pull.
Qed.

(** X4: [_group_missing_files] partitions its input: there is one group
    per file type, in the order of [file_types]; every record of a group
    has that group's type; and the groups together hold exactly the
    input records, each as many times as in the input. *)
Theorem group_missing_files_partition (missing : list link_info) :
  map fst (_group_missing_files missing) = file_types /\
  Forall (fun g => Forall (fun li => file_type_of (li_url li) = fst g) (snd g))
         (_group_missing_files missing) /\
  Permutation (concat (map snd (_group_missing_files missing))) missing.
Proof.
  split; [|split; [|apply group_missing_perm]].
  - unfold _group_missing_files. rewrite map_map. simpl. reflexivity.
  - unfold _group_missing_files.
    apply Forall_forall. intros g Hg. apply in_map_iff in Hg.
    destruct Hg as [t [<- _]]. simpl.
    apply Forall_forall. intros li Hli. apply filter_In in Hli.
    apply String.eqb_eq. exact (proj2 Hli).
Qed.

(** ** Titles of generated documents *)

Lemma replace_char_in (a b c : ascii) (s : string) :
  In c (list_ascii_of_string (py_replace_char a b s)) ->
  c = b \/ (c <> a /\ In c (list_ascii_of_string s)).
Proof.
  induction s as [|x s IH]; simpl; [intros []|].
  intros [H|H].
  - destruct (Ascii.eqb x a) eqn:E; [left; congruence|].
    right. subst. split; [intros ->; rewrite Ascii.eqb_refl in E; discriminate|left; reflexivity].
  - destruct (IH H) as [Hb|[Hn Hin]]; [left; exact Hb|right; split; [exact Hn|right; exact Hin]].
Qed.

Lemma case_map_not_symbol (a : ascii) (n : nat) :
  is_upper a || is_lower a = true -> ~ (65 <= n <= 90) -> ~ (97 <= n <= 122) ->
  nat_of_ascii (to_lower a) <> n /\ nat_of_ascii (to_upper a) <> n.
Proof.
  intros Hl Hn1 Hn2.
  assert (Ha := Ascii.nat_ascii_bounded a).
  unfold to_lower, to_upper, is_upper, is_lower in *.
  destruct ((65 <=? nat_of_ascii a) && (nat_of_ascii a <=? 90)) eqn:U;
  destruct ((97 <=? nat_of_ascii a) && (nat_of_ascii a <=? 122)) eqn:L;
  simpl in Hl; try discriminate;
  apply andb_true_iff in U || apply andb_false_iff in U;
  apply andb_true_iff in L || apply andb_false_iff in L;
  repeat match goal with
         | H : _ /\ _ |- _ => destruct H
         | H : _ \/ _ |- _ => destruct H
         | H : (_ <=? _) = true |- _ => apply Nat.leb_le in H
         | H : (_ <=? _) = false |- _ => apply Nat.leb_gt in H
         end;
  rewrite ?Ascii.nat_ascii_embedding by lia; split; lia.
Qed.

Lemma title_from_in (pc : bool) (c : ascii) (s : string) :
  is_upper c || is_lower c = false ->
  In c (list_ascii_of_string (py_title_from pc s)) -> In c (list_ascii_of_string s).
Proof.
  revert pc; induction s as [|a s IH]; intros pc Hc; simpl; [intros []|].
  destruct (is_upper a || is_lower a) eqn:E; simpl.
  - intros [H|H]; [|right; exact (IH _ Hc H)].
    exfalso. unfold is_upper, is_lower in Hc.
    apply orb_false_iff in Hc. destruct Hc as [Hc1 Hc2].
    apply andb_false_iff in Hc1. apply andb_false_iff in Hc2.
    assert (Hu : ~ (65 <= nat_of_ascii c <= 90))
      by (destruct Hc1 as [Q|Q]; apply Nat.leb_gt in Q; lia).
    assert (Hw : ~ (97 <= nat_of_ascii c <= 122))
      by (destruct Hc2 as [Q|Q]; apply Nat.leb_gt in Q; lia).
    destruct (case_map_not_symbol a (nat_of_ascii c) E Hu Hw) as [H1 H2].
    destruct pc; subst; [apply H1|apply H2]; reflexivity.
  - intros [H|H]; [left; exact H|right; exact (IH _ Hc H)].
Qed.

(** X5: for a file name in ASCII, where [py_title_from] is exactly
    Python's [str.title()], the title derived from it never contains a
    hyphen or an underscore: both become spaces before title-casing,
    which keeps every non-letter as it is. *)
Theorem title_has_no_separator (filename : string) :
  forallb (fun a => nat_of_ascii a <? 128) (list_ascii_of_string filename) = true ->
  ~ In "-"%char (list_ascii_of_string (title_of filename)) /\
  ~ In "_"%char (list_ascii_of_string (title_of filename)).
Proof.
  intros _.
  unfold title_of, py_title. split; intros H;
    (apply title_from_in in H; [|reflexivity]).
  - apply replace_char_in in H. destruct H as [H|[_ H]]; [discriminate|].
    apply replace_char_in in H. destruct H as [H|[H _]]; [discriminate|apply H; reflexivity].
  - apply replace_char_in in H. destruct H as [H|[H _]]; [discriminate|apply H; reflexivity].
Qed.

(** ** The resolver on ["./" + absolute] targets *)

Lemma substring_0_length (s : string) : substring 0 (String.length s) s = s.
Proof. induction s as [|a s IH]; simpl; [reflexivity|rewrite IH; reflexivity]. Qed.

(** X6: a target [.//x] (a same-directory marker followed by an absolute
    path) resolves to the absolute path [/x], whatever the document:
    only ["./"] is stripped and pathlib then drops the parent. *)
Theorem dot_slash_absolute_escapes (md : path) (u : string) :
  _resolve_link_path md ("./" ++ "/" ++ u) = Some (Path ("/" ++ u)).
Proof.
  unfold _resolve_link_path. simpl.
  replace (String.length u + 1 - 0) with (String.length ("/" ++ u)) by (simpl; lia).
  rewrite substring_0_length.
  unfold path_div.
  destruct (String.eqb (p_root (Path (String "/" u))) "") eqn:E; [|reflexivity].
  exfalso. apply String.eqb_eq in E. revert E.
  unfold Path; cbn [p_root]. unfold splitroot_root.
  destruct (py_startswith (String "/" u) "//" && negb (py_startswith (String "/" u) "///"));
    [intros H; congruence|].
  unfold py_startswith; cbn. destruct u; cbn; intros H; congruence.
Qed.

(** ** How many fixes are reported *)

Lemma create_all_count (docs : path) (dr : bool) (t : string) (files : list link_info) :
  forall n s m s', create_all docs dr t files n s = (Ok m, s') ->
  n <= m <= n + List.length files.
Proof.
  induction files as [|fi rest IH]; intros n s m s' H; simpl in H.
  - inversion H; subst; simpl; lia.
  - unfold bind in H.
    destruct (_create_missing_file docs dr fi t s) as [[b|e] s1]; [|discriminate].
    apply IH in H. simpl. destruct b; lia.
Qed.

Lemma create_groups_count (docs : path) (dr : bool) (gs : list (string * list link_info)) :
  forall n s m s', create_groups docs dr gs n s = (Ok m, s') ->
  n <= m <= n + group_total gs.
Proof.
  induction gs as [|[t files] rest IH]; intros n s m s' H; simpl in H.
  - inversion H; subst; simpl; lia.
  - unfold bind in H.
    destruct (create_all docs dr t files n s) as [[k|e] s1] eqn:E; [|discriminate].
    apply create_all_count in E. apply IH in H. simpl. lia.
Qed.

(** X7: whatever the mode, [fix_missing_files] never reports more files
    than it was given [missing_files] records. *)
Theorem fix_missing_files_bound (docs : path) (dr : bool) (missing : list link_info)
  (s : fixer) (n : nat) :
  fst (fix_missing_files docs dr missing s) = Ok n -> n <= List.length missing.
Proof.
  unfold fix_missing_files. intros H.
  destruct (create_groups docs dr (_group_missing_files missing) 0 s) as [r s'] eqn:E.
  simpl in H. subst r. apply create_groups_count in E.
  rewrite group_missing_total in E. lia.
Qed.

Section DryCount.

Variable docs : path.
Variable F : list (key * string).

Lemma dry_create_missing_file_true (fi : link_info) (t : string) :
  dry_post F (_create_missing_file docs true fi t) (fun b => b = true).
Proof.
  unfold _create_missing_file. cbv zeta.
  apply (dry_bind _ _ _ (dry_inv F)). { apply dry_get. }
  intros s [_ [Hc _]]. rewrite Hc. simpl.
  apply (dry_bind _ _ _ (fun _ => True)).
  { destruct (String.eqb _ _); [apply dry_lift|apply dry_ret; exact I]. }
  intros tp _.
  apply (dry_bind _ _ _ (fun _ => True)). { apply dry_mkdir. }
  intros _ _. apply dry_ret. reflexivity.
Qed.

Lemma dry_create_all_count (t : string) (files : list link_info) (n : nat) :
  dry_post F (create_all docs true t files n) (fun m => m = n + List.length files).
Proof.
  revert n; induction files as [|fi rest IH]; intros n; simpl.
  - apply dry_ret. lia.
  - apply (dry_bind _ _ _ (fun b => b = true)); [apply dry_create_missing_file_true|].
    intros b ->. apply (dry_weaken _ _ _ _ (IH (S n))). intros m ->. lia.
Qed.

Lemma dry_create_groups_count (gs : list (string * list link_info)) (n : nat) :
  dry_post F (create_groups docs true gs n) (fun m => m = n + group_total gs).
Proof.
  revert n; induction gs as [|[t files] rest IH]; intros n; simpl.
  - apply dry_ret. lia.
  - apply (dry_bind _ _ _ (fun m => m = n + List.length files)); [apply dry_create_all_count|].
    intros m ->. apply (dry_weaken _ _ _ _ (IH _)). intros k ->. simpl. lia.
Qed.

End DryCount.

(** X8: a dry run of [fix_missing_files] on a fresh fixer that does not
    raise reports exactly one fix per [missing_files] record: nothing is
    recorded in [created_files], so no record is recognised as done. *)
Theorem dry_fix_missing_files_count (docs : path) (missing : list link_info) (f : fs) (n : nat) :
  fst (fix_missing_files docs true missing (mkFixer f [] [])) = Ok n ->
  n = List.length missing.
Proof.
  intros H. unfold fix_missing_files in H.
  destruct (dry_create_groups_count docs (fs_files f) (_group_missing_files missing) 0
              (mkFixer f [] [])) as [_ HQ]; [repeat split|].
  rewrite (HQ n H), group_missing_total. reflexivity.
Qed.

Lemma create_sample_adrs_count (docs : path) (dr : bool) (adrs : list (string * string)) :
  forall n s m s', create_sample_adrs docs dr adrs n s = (Ok m, s') ->
  n <= m <= n + List.length adrs.
Proof.
  induction adrs as [|[fn title] rest IH]; intros n s m s' H; simpl in H.
  - inversion H; subst; simpl; lia.
  - unfold bind, get in H.
    destruct (path_exists _ _); [apply IH in H; simpl; lia|].
    destruct dr; [apply IH in H; simpl; lia|].
    unfold try_except in H.
    destruct (fs_op _ s) as [[u|e] s1]; simpl in H; apply IH in H; simpl; lia.
Qed.

(** X9: [fix_sample_project_links] reports at most three fixes, one per
    sample ADR it knows, whatever links it is given. *)
Theorem fix_sample_links_bound (docs : path) (dr : bool) (links : list link_info)
  (s : fixer) (n : nat) :
  fst (fix_sample_project_links docs dr links s) = Ok n -> n <= 3.
Proof.
  unfold fix_sample_project_links, bind. intros H.
  destruct (if dr then ret tt else fs_op (fun f => mkdir_p f (sample_dir docs))) as [[u|e] s1];
    [|discriminate].
  destruct (create_sample_adrs docs dr sample_adrs 0 s1) as [r s2] eqn:E.
  simpl in H. subst r. apply create_sample_adrs_count in E. simpl in E. lia.
Qed.

(** ** The sample scaffolder on a tree that already has the samples *)

Lemma walk_app_mkdir_noop (f : fs) (ps : list string) (x : string) :
  forall cur k, walk f cur (ps ++ [x])%list = Some k -> mkdir_walk f cur ps = Ok f.
Proof.
  induction ps as [|y rest IH]; intros cur k H; simpl in *; [reflexivity|].
  destruct (String.eqb y ".."); [exact (IH _ _ H)|].
  destruct (rest ++ [x])%list as [|z zs] eqn:E; [destruct rest; discriminate|].
  destruct (is_dir f (cur ++ [y])%list); [|discriminate].
  exact (IH _ _ H).
Qed.

Lemma path_exists_walk (f : fs) (p : path) :
  path_exists f p = true -> exists k, walk f [] (p_parts p) = Some k.
Proof.
  unfold path_exists. destruct (walk f [] (p_parts p)) as [k|]; [eauto|discriminate].
Qed.

Lemma sample_adr_parts (docs : path) (fn : string) :
  fn = "001-database-architecture.md" ->
  p_parts (path_div (sample_dir docs) fn) = (p_parts (sample_dir docs) ++ [fn])%list.
Proof. intros ->. reflexivity. Qed.

Lemma create_sample_adrs_present (docs : path) (dr : bool) (adrs : list (string * string)) :
  forall n s,
  forallb (fun a => path_exists (fx_fs s) (path_div (sample_dir docs) (fst a))) adrs = true ->
  create_sample_adrs docs dr adrs n s = (Ok n, s).
Proof.
  induction adrs as [|[fn title] rest IH]; intros n s H; simpl in *; [reflexivity|].
  apply andb_true_iff in H. destruct H as [H1 H2].
  unfold bind, get. rewrite H1. apply IH, H2.
Qed.

(** X10: once the three sample ADRs exist, [fix_sample_project_links]
    is a no-op in either mode: it reports no fix and leaves the fixer,
    its filesystem included, exactly as it was ([mkdir] finds the
    sample directory in place). *)
Theorem sample_links_noop_when_present (docs : path) (dr : bool) (links : list link_info)
  (s : fixer) :
  forallb (fun a => path_exists (fx_fs s) (path_div (sample_dir docs) (fst a))) sample_adrs
    = true ->
  fix_sample_project_links docs dr links s = (Ok 0, s).
Proof.
  intros H. unfold fix_sample_project_links, bind.
  assert (Hm : mkdir_p (fx_fs s) (sample_dir docs) = Ok (fx_fs s)).
  { simpl in H. apply andb_true_iff in H. destruct H as [H _].
    apply path_exists_walk in H. destruct H as [k Hk].
    rewrite sample_adr_parts in Hk by reflexivity.
    exact (walk_app_mkdir_noop _ _ _ _ _ Hk). }
  destruct dr.
  - apply create_sample_adrs_present, H.
  - unfold fs_op. rewrite Hm. destruct s as [f0 c0 u0].
    apply create_sample_adrs_present, H.
Qed.

(** ** The [re.sub] of research links *)

Lemma parse_template_literal (fuel : nat) (l : list ascii) :
  ~ In bs l -> List.length l <= fuel -> parse_template fuel l = Ok (map TLit l).
Proof.
  revert l; induction fuel as [|k IH]; intros l Hb Hl.
  - destruct l; [reflexivity|simpl in Hl; lia].
  - destruct l as [|a r]; [reflexivity|]. simpl.
    destruct (Ascii.eqb a bs) eqn:E.
    + apply Ascii.eqb_eq in E. subst. exfalso. apply Hb. left. reflexivity.
    + simpl. rewrite IH; [reflexivity| |simpl in Hl; lia].
      intros H. apply Hb. right. exact H.
Qed.

Lemma expand_literal (l : list ascii) (g0 g1 : string) :
  expand_template (map TLit l) g0 g1 = string_of_list_ascii l.
Proof.
  unfold expand_template. induction l as [|a r IH]; [reflexivity|].
  simpl. destruct r as [|b r']; [reflexivity|].
  simpl in *. rewrite IH. reflexivity.
Qed.

Lemma list_ascii_app (s t : string) :
  list_ascii_of_string (s ++ t) = (list_ascii_of_string s ++ list_ascii_of_string t)%list.
Proof. induction s as [|a s IH]; simpl; [reflexivity|rewrite IH; reflexivity]. Qed.

Lemma research_sub_literal (url content : string) :
  ~ In bs (list_ascii_of_string url) ->
  research_sub url content
  = Ok (sub_fuel (String.length content) url
                 (map TLit (list_ascii_of_string (research_replacement url))) content).
Proof.
  intros Hb. unfold research_sub. fold (research_replacement url).
  rewrite parse_template_literal; [reflexivity| |lia].
  unfold research_replacement. rewrite !list_ascii_app.
  intros H. apply in_app_or in H. destruct H as [H|H]; [simpl in H; intuition discriminate|].
  apply in_app_or in H. destruct H as [H|H]; [exact (Hb H)|simpl in H; intuition discriminate].
Qed.

Lemma string_length_app (s t : string) :
  String.length (s ++ t) = String.length s + String.length t.
Proof. induction s as [|a s IH]; simpl; [reflexivity|rewrite IH; reflexivity]. Qed.

Lemma string_app_assoc (a b c : string) : (a ++ b) ++ c = a ++ (b ++ c).
Proof. induction a as [|x a IH]; simpl; [reflexivity|rewrite IH; reflexivity]. Qed.

Lemma prefix_app (p q : string) : String.prefix p (p ++ q) = true.
Proof.
  induction p as [|a p IH]; simpl; [destruct q; reflexivity|].
  destruct (ascii_dec a a) as [_|n]; [exact IH|congruence].
Qed.

Lemma substring_app (p q : string) :
  substring (String.length p) (String.length q) (p ++ q) = q.
Proof. induction p as [|a p IH]; simpl; [apply substring_0_length|exact IH]. Qed.

Lemma take_until_app (c : ascii) (w r : string) :
  ~ In c (list_ascii_of_string w) -> take_until c (w ++ String c r) = Some (w, r).
Proof.
  induction w as [|a w IH]; intros Hw; simpl.
  - rewrite Ascii.eqb_refl. reflexivity.
  - destruct (Ascii.eqb a c) eqn:E.
    + apply Ascii.eqb_eq in E. subst. exfalso. apply Hw. left. reflexivity.
    + rewrite IH; [reflexivity|]. intros H. apply Hw. right. exact H.
Qed.

Lemma sub_fuel_plain (url : string) (ps : list tpiece) (s : string) :
  ~ In "["%char (list_ascii_of_string s) ->
  forall k, String.length s <= k -> sub_fuel k url ps s = s.
Proof.
  induction s as [|a s IH]; intros Hs k Hk; destruct k as [|k]; simpl in *;
    try reflexivity; try lia.
  destruct (Ascii.eqb a "["%char) eqn:E.
  - apply Ascii.eqb_eq in E. subst. exfalso. apply Hs. left. reflexivity.
  - rewrite IH; [reflexivity| |lia]. intros H. apply Hs. right. exact H.
Qed.

Lemma sub_fuel_prefix (url : string) (ps : list tpiece) (pre rest : string) :
  ~ In "["%char (list_ascii_of_string pre) ->
  forall k, String.length pre <= k ->
  sub_fuel k url ps (pre ++ rest) = pre ++ sub_fuel (k - String.length pre) url ps rest.
Proof.
  induction pre as [|a pre IH]; intros Hs k Hk; simpl in *.
  - rewrite Nat.sub_0_r. reflexivity.
  - destruct k as [|k]; [lia|]. simpl.
    destruct (Ascii.eqb a "["%char) eqn:E.
    + apply Ascii.eqb_eq in E. subst. exfalso. apply Hs. left. reflexivity.
    + rewrite IH; [reflexivity| |lia]. intros H. apply Hs. right. exact H.
Qed.

Lemma sub_fuel_link (url text post : string) (ps : list tpiece) (k : nat) :
  ~ In "]"%char (list_ascii_of_string text) ->
  ~ In "["%char (list_ascii_of_string post) ->
  String.length ("[" ++ text ++ "](" ++ url ++ ")" ++ post) <= k ->
  sub_fuel k url ps ("[" ++ text ++ "](" ++ url ++ ")" ++ post)
  = expand_template ps ("[" ++ text ++ "](" ++ url ++ ")") text ++ post.
Proof.
  intros Ht Hp Hk.
  rewrite !string_length_app in Hk. simpl in Hk.
  destruct k as [|k]; [lia|].
  simpl. unfold try_research_link.
  rewrite take_until_app by exact Ht. simpl.
  replace (url ++ String ")" post) with ((url ++ ")") ++ post)
    by (rewrite string_app_assoc; reflexivity).
  rewrite prefix_app. simpl.
  rewrite string_length_app.
  replace (String.length (url ++ ")") + String.length post - (String.length url + 1))
    with (String.length post) by (rewrite string_length_app; simpl; lia).
  replace (String.length url + 1) with (String.length (url ++ ")"))
    by (rewrite string_length_app; reflexivity).
  rewrite substring_app.
  rewrite sub_fuel_plain; [reflexivity|exact Hp|lia].
Qed.

(** X11: for a target without a backslash, [re.sub] turns a document
    [pre [text](url) post], with no ['['] in [pre] or [post] and no [']']
    in [text], into [pre <!-- TODO: Fix research link: url --> post]:
    the link, its display text included, is replaced by the comment. *)
Theorem research_sub_replaces_link (url pre text post : string) :
  ~ In bs (list_ascii_of_string url) ->
  ~ In "["%char (list_ascii_of_string pre) ->
  ~ In "]"%char (list_ascii_of_string text) ->
  ~ In "["%char (list_ascii_of_string post) ->
  research_sub url (pre ++ "[" ++ text ++ "](" ++ url ++ ")" ++ post)
  = Ok (pre ++ research_replacement url ++ post).
Proof.
  intros Hu Hpre Ht Hpost. rewrite research_sub_literal by exact Hu. f_equal.
  rewrite sub_fuel_prefix by (try exact Hpre; rewrite string_length_app; lia).
  f_equal.
  rewrite sub_fuel_link; [|exact Ht|exact Hpost|rewrite (string_length_app pre); lia].
  rewrite expand_literal, string_of_list_ascii_of_string. reflexivity.
Qed.

Lemma sub_all_err (links : list link_info) (l : link_info) :
  In l links ->
  (forall content, exists e, research_sub (li_url l) content = Err e) ->
  forall content, exists e, sub_all links content = Err e.
Proof.
  intros Hin Hl. induction links as [|l' rest IH]; [destruct Hin|].
  intros content. simpl.
  destruct Hin as [->|Hin].
  - destruct (Hl content) as [e He]. rewrite He. eauto.
  - destruct (research_sub (li_url l') content) as [c'|e]; [|eauto].
    exact (IH Hin c').
Qed.

(** X12: when building the [re.sub] replacement for one research link
    of a file raises (the target goes unescaped into the replacement
    template, so an unknown escape such as [\q] or a group reference
    beyond [\1] raises [re.error]), the handler swallows the exception
    and the whole file is left alone: no link of that file is fixed,
    nothing is written or recorded, and [False] is returned. *)
Theorem research_template_error_aborts_file (docs : path) (dr : bool) (src : string)
  (links : list link_info) (l : link_info) (e : string) (s : fixer) :
  In l links ->
  parse_template (List.length (list_ascii_of_string (research_replacement (li_url l))))
                 (list_ascii_of_string (research_replacement (li_url l))) = Err e ->
  _fix_research_links_in_file docs dr src links s = (Ok false, s).
Proof.
  intros Hin He.
  assert (Hl : forall content, exists e', research_sub (li_url l) content = Err e').
  { intros content. exists e. unfold research_sub. fold (research_replacement (li_url l)).
    rewrite He. reflexivity. }
  unfold _fix_research_links_in_file, try_except, bind, get, lift. cbv zeta.
  destruct (read_text (fx_fs s) (path_div docs src)) as [orig|e']; [|reflexivity].
  destruct (sub_all_err links l Hin Hl orig) as [e' He'].
  rewrite He'. reflexivity.
Qed.

(** ** Grouping of research links by source file *)



Lemma add_to_group_absent (l : link_info) (gs : list (string * list link_info)) :
  ~ In (li_file l) (map fst gs) -> map (add_to_group l) gs = gs.
Proof.
  induction gs as [|e rest IH]; intros H; simpl; [reflexivity|].
  unfold add_to_group at 1. destruct (String.eqb (fst e) (li_file l)) eqn:E.
  - apply String.eqb_eq in E. exfalso. apply H. left. exact E.
  - rewrite IH; [reflexivity|]. intros H'. apply H. right. exact H'.
Qed.

Lemma add_to_group_keys (l : link_info) (gs : list (string * list link_info)) :
  map fst (map (add_to_group l) gs) = map fst gs.
Proof.
  induction gs as [|e rest IH]; simpl; [reflexivity|].
  rewrite IH. unfold add_to_group. destruct (String.eqb _ _); reflexivity.
Qed.

Lemma add_to_group_total (l : link_info) (gs : list (string * list link_info)) :
  NoDup (map fst gs) -> existsb (fun e => String.eqb (fst e) (li_file l)) gs = true ->
  group_total (map (add_to_group l) gs) = S (group_total gs).
Proof.
  induction gs as [|e rest IH]; intros Hn Hx; simpl in *; [discriminate|].
  inversion Hn as [|k ks Hk Hks]; subst.
  unfold add_to_group at 1. destruct (String.eqb (fst e) (li_file l)) eqn:E; simpl.
  - apply String.eqb_eq in E. rewrite add_to_group_absent by (rewrite <- E; exact Hk).
    rewrite length_app. simpl. lia.
  - rewrite IH; [lia|exact Hks|exact Hx].
Qed.

Lemma group_by_file_ok (links : list link_info) :
  forall acc, groups_ok acc ->
  groups_ok (group_by_file links acc) /\
  group_total (group_by_file links acc) = group_total acc + List.length links.
Proof.
  induction links as [|l rest IH]; intros acc [Hn Hf]; simpl.
  - split; [split; assumption|lia].
  - destruct (existsb (fun e => String.eqb (fst e) (li_file l)) acc) eqn:X.
    + fold (add_to_group l).
      destruct (IH (map (add_to_group l) acc)) as [H1 H2].
      { split; [rewrite add_to_group_keys; exact Hn|].
        apply Forall_map. eapply Forall_impl; [|exact Hf].
        intros e He. unfold add_to_group.
        destruct (String.eqb (fst e) (li_file l)) eqn:E; [|exact He].
        apply String.eqb_eq in E. simpl. apply Forall_app. split; [exact He|].
        constructor; [symmetry; exact E|constructor]. }
      split; [exact H1|]. rewrite H2, add_to_group_total by assumption. simpl. lia.
    + destruct (IH (acc ++ [(li_file l, [l])])%list) as [H1 H2].
      { split.
        - rewrite map_app. simpl. apply NoDup_app; [exact Hn|constructor; [intros []|constructor]|].
          intros k Hk Hk'. destruct Hk' as [<-|[]].
          apply in_map_iff in Hk. destruct Hk as [e [Ek He]].
          assert (Hx : existsb (fun e => String.eqb (fst e) (li_file l)) acc = true).
          { apply existsb_exists. exists e. split; [exact He|apply String.eqb_eq; exact Ek]. }
          congruence.
        - apply Forall_app. split; [exact Hf|]. constructor; [|constructor].
          simpl. constructor; [reflexivity|constructor]. }
      split; [exact H1|]. rewrite H2.
      unfold group_total. rewrite fold_right_app. simpl.
      assert (G : forall (gs : list (string * list link_info)) n,
                 fold_right (fun g acc => List.length (snd g) + acc) n gs
                 = fold_right (fun g acc => List.length (snd g) + acc) 0 gs + n).
      { induction gs as [|g gs IHg]; intros n; simpl; [reflexivity|rewrite IHg; lia]. }
      rewrite G. lia.
Qed.

Lemma add_to_group_perm (l : link_info) (gs : list (string * list link_info)) :
  NoDup (map fst gs) -> existsb (fun e => String.eqb (fst e) (li_file l)) gs = true ->
  Permutation (concat (map snd (map (add_to_group l) gs))) (concat (map snd gs) ++ [l]).
Proof.
  induction gs as [|e rest IH]; intros Hn Hx; simpl in *; [discriminate|].
  inversion Hn as [|k ks Hk Hks]; subst.
  unfold add_to_group at 1. destruct (String.eqb (fst e) (li_file l)) eqn:E; simpl.
  - apply String.eqb_eq in E. rewrite add_to_group_absent by (rewrite <- E; exact Hk).
    rewrite <- !app_assoc. apply Permutation_app_head, Permutation_app_comm.
  - rewrite <- app_assoc. apply Permutation_app_head, IH; assumption.
Qed.

Lemma group_by_file_perm (links : list link_info) :
  forall acc, groups_ok acc ->
  Permutation (concat (map snd (group_by_file links acc))) (concat (map snd acc) ++ links).
Proof.
  induction links as [|l rest IH]; intros acc Hok; simpl.
  - rewrite app_nil_r. reflexivity.
  - destruct (group_by_file_ok [l] acc Hok) as [Hok' _]. simpl in Hok'.
    destruct (existsb (fun e => String.eqb (fst e) (li_file l)) acc) eqn:X.
    + fold (add_to_group l) in *.
      etransitivity; [apply IH, Hok'|].
      etransitivity; [apply Permutation_app_tail, add_to_group_perm; [apply Hok|exact X]|].
      rewrite <- app_assoc. reflexivity.
    + etransitivity; [apply IH, Hok'|].
      rewrite map_app, concat_app. simpl. rewrite <- !app_assoc. reflexivity.
Qed.

(** X13: [files_to_update] groups the research links by source file:
    each file appears once, every link sits under its own file, and the
    groups together hold exactly the input links, each as many times as
    in the input (none lost, none repeated). *)
Theorem research_groups_partition (research : list link_info) :
  NoDup (map fst (group_by_file research [])) /\
  Forall (fun g => Forall (fun li => li_file li = fst g) (snd g)) (group_by_file research []) /\
  Permutation (concat (map snd (group_by_file research []))) research.
Proof.
  assert (H0 : groups_ok []) by (split; constructor).
  destruct (group_by_file_ok research [] H0) as [[H1 H2] _].
  split; [exact H1|split; [exact H2|]].
  exact (group_by_file_perm research [] H0).
Qed.

Lemma fix_research_groups_count (docs : path) (dr : bool) (gs : list (string * list link_info)) :
  forall n s m s', fix_research_groups docs dr gs n s = (Ok m, s') ->
  n <= m <= n + group_total gs.
Proof.
  induction gs as [|[src links] rest IH]; intros n s m s' H; simpl in H.
  - inversion H; subst; simpl; lia.
  - unfold bind in H.
    destruct (_fix_research_links_in_file docs dr src links s) as [[b|e] s1]; [|discriminate].
    apply IH in H. simpl. destruct b; lia.
Qed.

(** X14: whatever the mode, [fix_research_links] never reports more
    fixed links than it was given [research_links] records. *)
Theorem fix_research_links_bound (docs : path) (dr : bool) (research : list link_info)
  (s : fixer) (n : nat) :
  fst (fix_research_links docs dr research s) = Ok n -> n <= List.length research.
Proof.
  unfold fix_research_links. intros H.
  destruct (fix_research_groups docs dr (group_by_file research []) 0 s) as [r s'] eqn:E.
  simpl in H. subst r. apply fix_research_groups_count in E.
  destruct (group_by_file_ok research []) as [_ Ht]; [split; constructor|].
  rewrite Ht in E. simpl in E. lia.
Qed.

(** ** [created_files] against the reported count *)


Lemma kc_ret {A} (a : A) : keeps_created (ret a).
Proof. intros s. reflexivity. Qed.

Lemma kc_get : keeps_created get.
Proof. intros s. reflexivity. Qed.

Lemma kc_lift {A} (r : result A) : keeps_created (lift r).
Proof. intros s. reflexivity. Qed.

Lemma kc_fs_op (op : fs -> result fs) : keeps_created (fs_op op).
Proof. intros s. unfold fs_op. destruct (op (fx_fs s)); reflexivity. Qed.

Lemma kc_add_updated (p : path) : keeps_created (add_updated p).
Proof. intros s. reflexivity. Qed.

Lemma kc_bind {A B} (m : M A) (k : A -> M B) :
  keeps_created m -> (forall a, keeps_created (k a)) -> keeps_created (bind m k).
Proof.
  intros Hm Hk s. unfold bind. specialize (Hm s).
  destruct (m s) as [[a|e] s'] eqn:E; simpl in *; [rewrite Hk|]; exact Hm.
Qed.

Lemma kc_try {A} (m : M A) (h : string -> M A) :
  keeps_created m -> (forall e, keeps_created (h e)) -> keeps_created (try_except m h).
Proof.
  intros Hm Hh s. unfold try_except. specialize (Hm s).
  destruct (m s) as [[a|e] s'] eqn:E; simpl in *; [|rewrite Hh]; exact Hm.
Qed.

Create HintDb keeps.
#[local] Hint Resolve kc_ret kc_get kc_lift kc_fs_op kc_add_updated : keeps.

Lemma kc_fix_research_groups (docs : path) (dr : bool) (gs : list (string * list link_info))
  (n : nat) : keeps_created (fix_research_groups docs dr gs n).
Proof.
  revert n; induction gs as [|[src links] rest IH]; intros n; simpl; [auto with keeps|].
  apply kc_bind; [|intros; apply IH].
  unfold _fix_research_links_in_file. cbv zeta.
  apply kc_try; [|auto with keeps].
  apply kc_bind; [auto with keeps|intros s].
  apply kc_bind; [auto with keeps|intros c0].
  apply kc_bind; [auto with keeps|intros c].
  destruct (negb _); [|auto with keeps].
  destruct dr; [auto with keeps|].
  apply kc_bind; [auto with keeps|intros []].
  apply kc_bind; auto with keeps.
Qed.

Lemma kc_fix_sample_links (docs : path) (dr : bool) (links : list link_info) :
  keeps_created (fix_sample_project_links docs dr links).
Proof.
  unfold fix_sample_project_links.
  apply kc_bind; [destruct dr; auto with keeps|intros _].
  generalize 0. induction sample_adrs as [|[fn title] rest IH]; intros n; simpl; [auto with keeps|].
  apply kc_bind; [auto with keeps|intros s].
  destruct (path_exists _ _); [apply IH|]. destruct dr; [apply IH|].
  apply kc_bind; [|intros; apply IH].
  apply kc_try; [|auto with keeps]. apply kc_bind; auto with keeps.
Qed.

Lemma set_add_length (p : path) (xs : list path) :
  List.length (set_add p xs) <= S (List.length xs).
Proof. unfold set_add. destruct (existsb _ _); [lia|rewrite length_app; simpl; lia]. Qed.


Lemma create_missing_file_created (docs : path) (dr : bool) (fi : link_info) (t : string)
  (s : fixer) :
  List.length (created_files (snd (_create_missing_file docs dr fi t s)))
  <= List.length (created_files s) + true_count (fst (_create_missing_file docs dr fi t s)).
Proof.
  unfold _create_missing_file, bind, get, ret, lift, fs_op, try_except, add_created.
  cbv zeta.
  destruct (existsb _ (created_files s)); [simpl; lia|].
  destruct (String.eqb (suffix (initial_target docs fi)) "");
    [destruct (with_suffix (initial_target docs fi) ".md") as [tp|e]; [|simpl; lia]|];
    [set (tp' := tp)|set (tp' := initial_target docs fi)];
    (destruct (mkdir_p (fx_fs s) (parent tp')) as [f1|e]; [|simpl; lia]);
    (destruct dr; [simpl; lia|]); cbn [fx_fs created_files updated_files];
    (destruct (write_text f1 tp' (_generate_file_content tp' t)) as [f2|e]; simpl; [|lia]);
    pose proof (set_add_length tp' (created_files s)); lia.
Qed.

Lemma create_all_created (docs : path) (dr : bool) (t : string) (files : list link_info) :
  forall n s m s', create_all docs dr t files n s = (Ok m, s') ->
  List.length (created_files s') + n <= List.length (created_files s) + m.
Proof.
  induction files as [|fi rest IH]; intros n s m s' H; simpl in H.
  - inversion H; subst; lia.
  - unfold bind in H.
    pose proof (create_missing_file_created docs dr fi t s) as Hc.
    destruct (_create_missing_file docs dr fi t s) as [[b|e] s1]; [|discriminate].
    apply IH in H. simpl in Hc. destruct b; simpl in *; lia.
Qed.

Lemma create_groups_created (docs : path) (dr : bool) (gs : list (string * list link_info)) :
  forall n s m s', create_groups docs dr gs n s = (Ok m, s') ->
  List.length (created_files s') + n <= List.length (created_files s) + m.
Proof.
  induction gs as [|[t files] rest IH]; intros n s m s' H; simpl in H.
  - inversion H; subst; lia.
  - unfold bind in H.
    destruct (create_all docs dr t files n s) as [[k|e] s1] eqn:E; [|discriminate].
    apply create_all_created in E. apply IH in H. lia.
Qed.

(** X15: in a run of a fresh fixer that completes, the validation's
    [files_created] never exceeds the [fixed_missing_files] count: a
    path enters [created_files] only together with a successful
    creation, and the research and sample fixes never add to it. *)
Theorem files_created_le_fixed (docs : path) (dr : bool) (f : fs) (sm : summary) :
  fst (run_fix docs dr f) = Ok sm ->
  files_created (sum_validation sm) <= fixed_missing_files sm.
Proof.
  unfold run_fix, run_comprehensive_fix, bind, get, ret. cbv zeta.
  set (s0 := mkFixer f [] []).
  destruct (fix_missing_files docs dr _ s0) as [[n1|e] s1] eqn:E1;
    [|simpl; intros H; discriminate].
  unfold fix_missing_files in E1. apply create_groups_created in E1.
  pose proof (kc_fix_research_groups docs dr
                (group_by_file (research_links (analyze_broken_links docs (fx_fs s0))) []) 0 s1)
    as K2.
  unfold fix_research_links.
  destruct (fix_research_groups docs dr _ 0 s1) as [[n2|e] s2];
    [|simpl; intros H; discriminate].
  pose proof (kc_fix_sample_links docs dr
                (sample_project_links (analyze_broken_links docs (fx_fs s0))) s2) as K3.
  destruct (fix_sample_project_links docs dr _ s2) as [[n3|e] s3];
    [|simpl; intros H; discriminate].
  simpl in *. intros H. inversion H; subst; clear H. simpl.
  rewrite K3, K2. lia.
Qed.

(** ** Instances of the further properties on concrete trees *)

Ltac not_in_chars :=
  let H := fresh in intro H; vm_compute in H;
  repeat (destruct H as [H|H]; [discriminate H|]); destruct H.

Lemma fix_missing_files_bound_witness :
  fst (fix_missing_files docs_root false
         (missing_files (analyze_broken_links docs_root tree_duplicate))
         (mkFixer tree_duplicate [] [])) = Ok 2 /\
  2 <= List.length (missing_files (analyze_broken_links docs_root tree_duplicate)).
Proof.
  split; [vm_compute; reflexivity|].
  apply (fix_missing_files_bound docs_root false _ (mkFixer tree_duplicate [] []) 2).
  vm_compute. reflexivity.
Defined.

Lemma dry_fix_missing_files_count_witness :
  fst (fix_missing_files docs_root true
         (missing_files (analyze_broken_links docs_root tree_duplicate))
         (mkFixer tree_duplicate [] [])) = Ok 2 /\
  2 = List.length (missing_files (analyze_broken_links docs_root tree_duplicate)).
Proof.
  split; [vm_compute; reflexivity|].
  apply (dry_fix_missing_files_count docs_root _ tree_duplicate 2).
  vm_compute. reflexivity.
Defined.

Lemma fix_sample_links_bound_witness :
  fst (fix_sample_project_links docs_root false [] (mkFixer tree_missing_page [] [])) = Ok 3 /\
  3 <= 3.
Proof.
  split; [vm_compute; reflexivity|].
  apply (fix_sample_links_bound docs_root false [] (mkFixer tree_missing_page [] [])).
  vm_compute. reflexivity.
Defined.

Lemma sample_links_noop_when_present_witness :
  fix_sample_project_links docs_root false [] (mkFixer tree_with_samples [] [])
  = (Ok 0, mkFixer tree_with_samples [] []).
Proof.
  apply sample_links_noop_when_present. vm_compute. reflexivity.
Defined.

Lemma research_sub_replaces_link_witness :
  research_sub "./perform_research_research_1.md"
    ("See " ++ "[" ++ "r" ++ "](" ++ "./perform_research_research_1.md" ++ ")" ++ " here.")
  = Ok ("See " ++ research_replacement "./perform_research_research_1.md" ++ " here.").
Proof.
  apply research_sub_replaces_link; not_in_chars.
Defined.

Lemma research_template_error_aborts_file_witness :
  _fix_research_links_in_file docs_root false "index.md"
    (research_links (analyze_broken_links docs_root tree_bad_escape))
    (mkFixer tree_bad_escape [] [])
  = (Ok false, mkFixer tree_bad_escape [] []).
Proof.
  apply (research_template_error_aborts_file docs_root false "index.md"
           (research_links (analyze_broken_links docs_root tree_bad_escape))
           (nth 1 (research_links (analyze_broken_links docs_root tree_bad_escape))
                (mkInfo "" "" "" None ""))
           "re.error: bad escape").
  - vm_compute. right. left. reflexivity.
  - vm_compute. reflexivity.
Defined.

Lemma fix_research_links_bound_witness :
  fst (fix_research_links docs_root false
         (research_links (analyze_broken_links docs_root tree_research))
         (mkFixer tree_research [] [])) = Ok 1 /\
  1 <= List.length (research_links (analyze_broken_links docs_root tree_research)).
Proof.
  split; [vm_compute; reflexivity|].
  apply (fix_research_links_bound docs_root false _ (mkFixer tree_research [] []) 1).
  vm_compute. reflexivity.
Defined.

Lemma title_has_no_separator_witness :
  ~ In "-"%char (list_ascii_of_string (title_of "getting-started_guide")) /\
  ~ In "_"%char (list_ascii_of_string (title_of "getting-started_guide")).
Proof.
  apply title_has_no_separator. vm_compute. reflexivity.
Defined.

Lemma files_created_le_fixed_witness :
  match fst (run_fix docs_root false tree_duplicate) with
  | Ok sm => files_created (sum_validation sm) <= fixed_missing_files sm
  | Err _ => False
  end.
Proof.
  destruct (fst (run_fix docs_root false tree_duplicate)) as [sm|e] eqn:E.
  - exact (files_created_le_fixed docs_root false tree_duplicate sm E).
  - vm_compute in E. discriminate E.
Defined.
